(** * BAZINGA backend: the OTP session store, its four POST handlers and the
      payment-signature check of [backend/index.js], embedded in Rocq.

    The handlers are translated one by one from the Express routes.  What
    the JavaScript reads from its surroundings is made an explicit input:
    the request body, the process environment, the clock, the random
    sources and the two collaborators (mail transport, payment gateway).
    What it writes is made an explicit output: the response, the contents
    of [otpStorage] and the list of calls handed to the collaborators. *)

From Stdlib Require Import ZArith NArith QArith Qround List Bool Ascii String Lia.
From Stdlib Require Import DecimalString DecimalPos DecimalFacts Lqa.
Import ListNotations.

Local Open Scope Z_scope.
Local Open Scope string_scope.

(* ================================================================== *)
(** ** JavaScript values                                                *)
(* ================================================================== *)

(** Strings are kept as their UTF-8 bytes (the encoding [Hmac.update]
    applies to a string argument); lone surrogates are outside the model.
    [JNum z] is a number whose value is the integer [z] in the range where
    [Number.prototype.toString] prints plain decimal digits; fractions are
    outside the model.  [JUndefined] is what destructuring gives for a
    field the body does not have. *)
#[warnings="-register-all"]
Inductive JsVal : Type :=
| JUndefined
| JNull
| JBool (b : bool)
| JNum (z : Z)
| JStr (s : string)
| JArr (elems : list JsVal)
| JObj (props : list (string * JsVal)).

(** Errors a handler can raise: a [TypeError] of the language, or the
    rejection of a collaborator's promise. *)
Inductive Exn : Type :=
| TypeError
| MailRejected
| GatewayRejected.

(** [!v] is [negb (truthy v)]. *)
Definition truthy (v : JsVal) : bool :=
  match v with
  | JUndefined | JNull => false
  | JBool b => b
  | JNum z => negb (z =? 0)%Z
  | JStr s => negb (s =? "")
  | JArr _ | JObj _ => true
  end.

Definition number_toString (z : Z) : string :=
  NilZero.string_of_int (Z.to_int z).

Fixpoint has_own (k : string) (props : list (string * JsVal)) : bool :=
  match props with
  | [] => false
  | (k', _) :: rest => (k =? k') || has_own k rest
  end.

Fixpoint own_prop (k : string) (props : list (string * JsVal)) : JsVal :=
  match props with
  | [] => JUndefined
  | (k', v) :: rest => if k =? k' then v else own_prop k rest
  end.

Fixpoint join (sep : string) (parts : list string) : string :=
  match parts with
  | [] => ""
  | [p] => p
  | p :: rest => p ++ sep ++ join sep rest
  end.

(** The abstract operation ToString, as applied by a template literal and
    by [RegExp.prototype.test].  A parsed JSON object holds no function, so
    an own property [toString] hides [Object.prototype.toString] by a value
    that cannot be called, and the conversion raises a TypeError; an array
    goes through [join], which prints [null] and [undefined] elements as the
    empty string. *)
Fixpoint ToString (v : JsVal) : option string :=
  match v with
  | JUndefined => Some "undefined"
  | JNull => Some "null"
  | JBool true => Some "true"
  | JBool false => Some "false"
  | JNum z => Some (number_toString z)
  | JStr s => Some s
  | JArr elems =>
      let fix parts (l : list JsVal) : option (list string) :=
        match l with
        | [] => Some []
        | e :: rest =>
            let here :=
              match e with
              | JUndefined | JNull => Some ""
              | _ => ToString e
              end in
            match here, parts rest with
            | Some s, Some ss => Some (s :: ss)
            | _, _ => None
            end
        end in
      match parts elems with
      | Some ss => Some (join "," ss)
      | None => None
      end
  | JObj props =>
      if has_own "toString" props then None else Some "[object Object]"
  end.

(** The method call [v.toString()]: reading a property of [undefined] or
    [null] raises a TypeError; every other value reaches the [toString] of
    its prototype, which agrees with [ToString]. *)
Definition toString (v : JsVal) : option string :=
  match v with
  | JUndefined | JNull => None
  | _ => ToString v
  end.

(** [s !== v] for a string [s]: strict equality never converts. *)
Definition strict_eq_string (s : string) (v : JsVal) : bool :=
  match v with
  | JStr t => s =? t
  | _ => false
  end.

(** Key comparison of [Map] (SameValueZero).  Arrays and objects are
    compared by identity; the body of every request is parsed into fresh
    objects, so such a key is never the one an earlier request stored. *)
Definition SameValueZero (a b : JsVal) : bool :=
  match a, b with
  | JUndefined, JUndefined => true
  | JNull, JNull => true
  | JBool x, JBool y => Bool.eqb x y
  | JNum x, JNum y => (x =? y)%Z
  | JStr x, JStr y => x =? y
  | _, _ => false
  end.

(* ================================================================== *)
(** ** [crypto]: HMAC-SHA256 and hexadecimal output                     *)
(* ================================================================== *)

(** [crypto.createHmac('sha256', key).update(text).digest('hex')] of Node's
    standard library, written out (FIPS 180-4 and RFC 2104) so that the
    signature check can be evaluated.  A word is an [N] below [2^32]; a byte
    an [N] below [256]. *)
Module SHA256.

Local Open Scope list_scope.
Local Open Scope N_scope.

Definition w32 (x : N) : N := N.land x 0xFFFFFFFF.
Definition add32 (x y : N) : N := w32 (x + y).
Definition rotr (n x : N) : N :=
  N.lor (N.shiftr x n) (w32 (N.shiftl x (32 - n))).
Definition not32 (x : N) : N := N.lxor x 0xFFFFFFFF.

Definition Ch (x y z : N) : N := N.lxor (N.land x y) (N.land (not32 x) z).
Definition Maj (x y z : N) : N :=
  N.lxor (N.lxor (N.land x y) (N.land x z)) (N.land y z).
Definition Sigma0 (x : N) : N := N.lxor (N.lxor (rotr 2 x) (rotr 13 x)) (rotr 22 x).
Definition Sigma1 (x : N) : N := N.lxor (N.lxor (rotr 6 x) (rotr 11 x)) (rotr 25 x).
Definition sigma0 (x : N) : N := N.lxor (N.lxor (rotr 7 x) (rotr 18 x)) (N.shiftr x 3).
Definition sigma1 (x : N) : N := N.lxor (N.lxor (rotr 17 x) (rotr 19 x)) (N.shiftr x 10).

(** The first [n] primes, by trial division. *)
Definition is_prime (p : N) : bool :=
  forallb (fun d => negb (p mod d =? 0)) (map N.of_nat (seq 2 (N.to_nat p - 2))).

Definition primes (n : nat) : list N :=
  firstn n (filter is_prime (map N.of_nat (seq 2 400))).

(** Integer cube root, one bit after the other from bit [bits - 1] down. *)
Fixpoint cube_root (bits : nat) (r x : N) : N :=
  match bits with
  | O => r
  | S b =>
      let c := r + N.shiftl 1 (N.of_nat b) in
      if c * c * c <=? x then cube_root b c x else cube_root b r x
  end.

(** The round constants: the first 32 bits of the fractional parts of the
    cube roots of the first 64 primes. *)
Definition K : list N :=
  Eval vm_compute in map (fun p => w32 (cube_root 36 0 (N.shiftl p 96))) (primes 64).

(** The initial hash value: the first 32 bits of the fractional parts of
    the square roots of the first 8 primes. *)
Definition H0 : list N :=
  Eval vm_compute in map (fun p => w32 (N.sqrt (N.shiftl p 64))) (primes 8).

(** Big-endian bytes of a number, [n] of them. *)
Fixpoint be_bytes (n : nat) (x : N) : list N :=
  match n with
  | O => []
  | S n' => be_bytes n' (N.shiftr x 8) ++ [N.land x 0xFF]
  end.

(** Padding: a [1] bit, zero bits up to 56 modulo 64 bytes, then the
    length in bits on 8 bytes. *)
Definition pad (msg : list N) : list N :=
  let len := N.of_nat (List.length msg) in
  let zeros := N.to_nat ((55 + 64 - len mod 64) mod 64) in
  msg ++ [0x80] ++ repeat 0 zeros ++ be_bytes 8 (8 * len).

(** The bytes of the padded message four by four, as big-endian words. *)
Fixpoint words (fuel : nat) (bs : list N) : list N :=
  match fuel, bs with
  | S f, b0 :: b1 :: b2 :: b3 :: rest =>
      (N.shiftl b0 24 + N.shiftl b1 16 + N.shiftl b2 8 + b3) :: words f rest
  | _, _ => []
  end.

(** Message schedule; [recent] holds the words computed so far, newest
    first. *)
Fixpoint schedule (n : nat) (recent : list N) : list N :=
  match n with
  | O => rev recent
  | S n' =>
      let w := add32 (add32 (sigma1 (nth 1 recent 0)) (nth 6 recent 0))
                     (add32 (sigma0 (nth 14 recent 0)) (nth 15 recent 0)) in
      schedule n' (w :: recent)
  end.

Record Regs : Type := mkRegs { ra : N; rb : N; rc : N; rd : N; re : N; rf : N; rg : N; rh : N }.

Definition round (s : Regs) (kw : N * N) : Regs :=
  let t1 := add32 (add32 (add32 (rh s) (Sigma1 (re s))) (Ch (re s) (rf s) (rg s)))
                  (add32 (fst kw) (snd kw)) in
  let t2 := add32 (Sigma0 (ra s)) (Maj (ra s) (rb s) (rc s)) in
  mkRegs (add32 t1 t2) (ra s) (rb s) (rc s) (add32 (rd s) t1) (re s) (rf s) (rg s).

Definition regs_of (h : list N) : Regs :=
  mkRegs (nth 0 h 0) (nth 1 h 0) (nth 2 h 0) (nth 3 h 0)
         (nth 4 h 0) (nth 5 h 0) (nth 6 h 0) (nth 7 h 0).

Definition list_of (s : Regs) : list N :=
  [ra s; rb s; rc s; rd s; re s; rf s; rg s; rh s].

Definition compress (h : list N) (block : list N) : list N :=
  let w := schedule 48 (rev block) in
  let s := fold_left round (combine K w) (regs_of h) in
  map (fun p => add32 (fst p) (snd p)) (combine h (list_of s)).

Fixpoint blocks (fuel : nat) (h : list N) (ws : list N) : list N :=
  match fuel, ws with
  | S f, _ :: _ => blocks f (compress h (firstn 16 ws)) (skipn 16 ws)
  | _, _ => h
  end.

Definition digest (msg : list N) : list N :=
  let p := pad msg in
  let ws := words (List.length p) p in
  flat_map (be_bytes 4) (blocks (List.length ws) H0 ws).

(** RFC 2104, block size 64: a longer key is hashed first. *)
Definition hmac (key msg : list N) : list N :=
  let k := if 64 <? N.of_nat (List.length key) then digest key else key in
  let k := k ++ repeat 0 (64 - List.length k)%nat in
  digest (map (N.lxor 0x5c) k ++ digest (map (N.lxor 0x36) k ++ msg)).

Definition hex_digit (d : N) : ascii :=
  if d <? 10 then ascii_of_N (48 + d) else ascii_of_N (87 + d).

Fixpoint hex (bs : list N) : string :=
  match bs with
  | [] => EmptyString
  | b :: rest => String (hex_digit (N.shiftr b 4)) (String (hex_digit (N.land b 0xF)) (hex rest))
  end.

Definition bytes_of (s : string) : list N := map N_of_ascii (list_ascii_of_string s).

End SHA256.

(** [crypto.createHmac('sha256', key).update(text).digest('hex')]. *)
Definition createHmac_sha256_hex (key text : string) : string :=
  SHA256.hex (SHA256.hmac (SHA256.bytes_of key) (SHA256.bytes_of text)).

(** [crypto.randomBytes(n).toString('hex')], for the bytes drawn. *)
Definition bytes_toString_hex (bs : list N) : string := SHA256.hex bs.

(* ================================================================== *)
(** ** Regular expressions, as far as [isValidEmail] needs them         *)
(* ================================================================== *)

(** Code points of a UTF-8 string.  A byte that starts no well-formed
    sequence is passed through as it is. *)
Fixpoint code_points (bs : list N) : list N :=
  match bs with
  | [] => []
  | b0 :: rest =>
      let cont (b : N) := N.land b 0x3F in
      if (b0 <? 0xC0)%N then b0 :: code_points rest
      else
        match rest with
        | b1 :: rest1 =>
            if (b0 <? 0xE0)%N
            then (N.shiftl (N.land b0 0x1F) 6 + cont b1)%N :: code_points rest1
            else
              match rest1 with
              | b2 :: rest2 =>
                  if (b0 <? 0xF0)%N
                  then (N.shiftl (N.land b0 0x0F) 12 + N.shiftl (cont b1) 6 + cont b2)%N
                         :: code_points rest2
                  else
                    match rest2 with
                    | b3 :: rest3 =>
                        (N.shiftl (N.land b0 0x07) 18 + N.shiftl (cont b1) 12
                         + N.shiftl (cont b2) 6 + cont b3)%N :: code_points rest3
                    | [] => b0 :: code_points rest
                    end
              | [] => b0 :: code_points rest
              end
        | [] => [b0]
        end
  end.

Inductive Regex : Type :=
| Nothing
| Eps
| Class (p : N -> bool)
| Seq (r1 r2 : Regex)
| Alt (r1 r2 : Regex)
| Star (r : Regex).

Definition Plus (r : Regex) : Regex := Seq r (Star r).

Fixpoint nullable (r : Regex) : bool :=
  match r with
  | Nothing => false
  | Eps => true
  | Class _ => false
  | Seq r1 r2 => nullable r1 && nullable r2
  | Alt r1 r2 => nullable r1 || nullable r2
  | Star _ => true
  end.

(** What remains to be matched after the character [c]. *)
Fixpoint deriv (c : N) (r : Regex) : Regex :=
  match r with
  | Nothing | Eps => Nothing
  | Class p => if p c then Eps else Nothing
  | Seq r1 r2 =>
      if nullable r1 then Alt (Seq (deriv c r1) r2) (deriv c r2)
      else Seq (deriv c r1) r2
  | Alt r1 r2 => Alt (deriv c r1) (deriv c r2)
  | Star r1 => Seq (deriv c r1) (Star r1)
  end.

(** [/^r$/.test(s)]: the whole string is in the language of [r]. *)
Definition regex_test (r : Regex) (s : string) : bool :=
  nullable (fold_left (fun r c => deriv c r) (code_points (SHA256.bytes_of s)) r).

(** The class [\s]: the white space and line terminators of ECMAScript. *)
Definition is_space (c : N) : bool :=
  ((9 <=? c) && (c <=? 13) || (c =? 32) || (c =? 0xA0) || (c =? 0x1680)
   || (0x2000 <=? c) && (c <=? 0x200A) || (c =? 0x2028) || (c =? 0x2029)
   || (c =? 0x202F) || (c =? 0x205F) || (c =? 0x3000) || (c =? 0xFEFF))%N.

(** [[^\s@]] *)
Definition not_space_at (c : N) : bool := negb (is_space c || (c =? 64)%N).

(** [/^[^\s@]+@[^\s@]+\.[^\s@]+$/] *)
Definition email_regex : Regex :=
  Seq (Plus (Class not_space_at))
      (Seq (Class (N.eqb 64))
           (Seq (Plus (Class not_space_at))
                (Seq (Class (N.eqb 46)) (Plus (Class not_space_at))))).

(* ================================================================== *)
(** ** Utility functions of the source                                  *)
(* ================================================================== *)

(** [Math.floor(100000 + Math.random() * 900000).toString()], for the
    value [random] that [Math.random()] returned: a rational in [0, 1).
    The arithmetic is exact; the rounding of doubles is not modelled. *)
Definition generateOTP (random : Q) : string :=
  number_toString (Qfloor (inject_Z 100000 + random * inject_Z 900000)).

(** [Date.now() - timestamp > 5 * 60 * 1000], for the value [now] that
    [Date.now()] returned. *)
Definition isOTPExpired (now timestamp : Z) : bool :=
  now - timestamp >? 5 * 60 * 1000.

(** [regex.test(email)] converts its argument with ToString first; [None]
    is the TypeError of that conversion. *)
Definition isValidEmail (email : JsVal) : option bool :=
  match ToString email with
  | Some s => Some (regex_test email_regex s)
  | None => None
  end.

(** [String.prototype.padStart]. *)
Definition padStart (targetLength : nat) (fill : string) (s : string) : string :=
  let missing := (targetLength - String.length s)%nat in
  substring 0 missing (String.concat "" (repeat fill missing)) ++ s.

(* ================================================================== *)
(** ** The OTP store                                                    *)
(* ================================================================== *)

(** The object literal [{ otp, timestamp, verified }]. *)
Record Session : Type := mkSession {
  otp : string;
  timestamp : Z;
  verified : bool
}.

(** [otpStorage]: a [Map], entries in insertion order. *)
Definition OtpMap : Type := list (JsVal * Session).

Fixpoint Map_get (k : JsVal) (m : OtpMap) : option Session :=
  match m with
  | [] => None
  | (k', v) :: rest => if SameValueZero k k' then Some v else Map_get k rest
  end.

(** [set] replaces the value of a key that is present, in place, and
    appends a new entry otherwise. *)
Fixpoint Map_set (k : JsVal) (v : Session) (m : OtpMap) : OtpMap :=
  match m with
  | [] => [(k, v)]
  | (k', v') :: rest =>
      if SameValueZero k k' then (k', v) :: rest else (k', v') :: Map_set k v rest
  end.

Definition Map_delete (k : JsVal) (m : OtpMap) : OtpMap :=
  filter (fun e => negb (SameValueZero k (fst e))) m.

(* ================================================================== *)
(** ** Surroundings of a handler                                        *)
(* ================================================================== *)

Record Attachment : Type := mkAttachment {
  filename : string;
  path : string
}.

Record MailOptions : Type := mkMail {
  mail_from : string;
  mail_to : JsVal;
  mail_subject : string;
  mail_html : string;
  mail_attachments : option (list Attachment)
}.

Record OrderOptions : Type := mkOrder {
  amount : Z;
  currency : string;
  receipt : string;
  notes_user_email : JsVal
}.

(** How an awaited promise of a collaborator settles. *)
Inductive Settled (A : Type) : Type :=
| Resolved (a : A)
| Rejected.
Arguments Resolved {A} a.
Arguments Rejected {A}.

(** What the module reads once: [process.env], [__dirname], [path.join].
    The secret is a string: [new Razorpay] refuses to start without it. *)
Record Env : Type := mkEnv {
  RAZORPAY_KEY_SECRET : string;
  EMAIL_USER : option string;
  dirname : string;
  path_join : list string -> string
}.

(** What one request reads from outside: the clock, the random sources and
    the answers of the collaborators. *)
Record World : Type := mkWorld {
  Date_now : Z;
  Math_random : Q;
  randomBytes : nat -> list N;
  sendMail : MailOptions -> Settled unit;
  orders_create : OrderOptions -> Settled JsVal
}.

(** A call handed to a collaborator. *)
Inductive Call : Type :=
| CallSendMail (m : MailOptions)
| CallOrdersCreate (o : OrderOptions).

Record Response : Type := mkResponse {
  status : Z;
  json : JsVal
}.

(** [`${process.env.X}`] *)
Definition env_text (v : option string) : string :=
  match v with
  | Some s => s
  | None => "undefined"
  end.

Definition dq : string := String (ascii_of_nat 34) EmptyString.

(* ================================================================== *)
(** ** The handler monad: store and call log, with exceptions           *)
(* ================================================================== *)

Record HState : Type := mkHState {
  otpStorage : OtpMap;
  calls : list Call
}.

Inductive Res (A : Type) : Type :=
| Val (a : A)
| Raise (e : Exn).
Arguments Val {A} a.
Arguments Raise {A} e.

(** Writes to the store made before an exception stay: nothing in the
    source undoes them. *)
Definition M (A : Type) : Type := HState -> Res A * HState.

Definition ret {A} (a : A) : M A := fun s => (Val a, s).

Definition bind {A B} (m : M A) (k : A -> M B) : M B :=
  fun s =>
    match m s with
    | (Val a, s') => k a s'
    | (Raise e, s') => (Raise e, s')
    end.

Definition throw {A} (e : Exn) : M A := fun s => (Raise e, s).

(** [try { m } catch (error) { h error }] *)
Definition try_catch {A} (m : M A) (h : Exn -> M A) : M A :=
  fun s =>
    match m s with
    | (Val a, s') => (Val a, s')
    | (Raise e, s') => h e s'
    end.

Declare Scope handler_scope.
Delimit Scope handler_scope with handler.
Notation "x <- m ;; k" := (bind m (fun x => k))
  (at level 61, m at next level, right associativity) : handler_scope.
Notation "m ;; k" := (bind m (fun _ => k))
  (at level 61, right associativity) : handler_scope.

(** A conversion that may raise a TypeError. *)
Definition convert {A} (o : option A) : M A :=
  match o with
  | Some a => ret a
  | None => throw TypeError
  end.

Definition storage_get (k : JsVal) : M (option Session) :=
  fun s => (Val (Map_get k (otpStorage s)), s).

Definition storage_set (k : JsVal) (v : Session) : M unit :=
  fun s => (Val tt, mkHState (Map_set k v (otpStorage s)) (calls s)).

Definition storage_delete (k : JsVal) : M unit :=
  fun s => (Val tt, mkHState (Map_delete k (otpStorage s)) (calls s)).

Definition record_call (c : Call) : M unit :=
  fun s => (Val tt, mkHState (otpStorage s) (calls s ++ [c])).

(** [await transporter.sendMail(mailOptions)] *)
Definition await_sendMail (w : World) (m : MailOptions) : M unit :=
  (record_call (CallSendMail m) ;;
   match sendMail w m with
   | Resolved _ => ret tt
   | Rejected => throw MailRejected
   end)%handler.

(** [await razorpay.orders.create(options)] *)
Definition await_orders_create (w : World) (o : OrderOptions) : M JsVal :=
  (record_call (CallOrdersCreate o) ;;
   match orders_create w o with
   | Resolved order => ret order
   | Rejected => throw GatewayRejected
   end)%handler.

(* ================================================================== *)
(** ** The routes                                                       *)
(* ================================================================== *)

(** [req.body]: the own properties of the parsed object; destructuring a
    name it does not have gives [undefined]. *)
Definition Body : Type := list (string * JsVal).

Local Open Scope handler_scope.

(** *** POST /api/send-otp *)

Definition otp_mailOptions (env : Env) (email : JsVal) (code : string) : MailOptions :=
  {| mail_from := dq ++ "BAZINGA! Verification" ++ dq ++ " <" ++ env_text (EMAIL_USER env) ++ ">";
     mail_to := email;
     mail_subject := "🔐 Your BAZINGA! Verification Code";
     mail_html := "
                <div style=" ++ dq ++ "font-family: Arial, sans-serif; text-align: center; color: #333;" ++ dq ++ ">
                    <h2>BAZINGA! Verification</h2>
                    <p>Your verification code is:</p>
                    <p style=" ++ dq ++ "font-size: 24px; font-weight: bold; letter-spacing: 4px;" ++ dq ++ ">" ++ code ++ "</p>
                    <p>This code expires in 5 minutes.</p>
                </div>
            ";
     mail_attachments := None |}.

Definition send_otp_invalid : Response :=
  mkResponse 400 (JObj [("error", JStr "Valid email is required")]).
Definition send_otp_ok : Response :=
  mkResponse 200 (JObj [("success", JBool true); ("message", JStr "OTP sent successfully")]).
Definition send_otp_failed : Response :=
  mkResponse 500 (JObj [("error", JStr "Failed to send OTP")]).

Definition send_otp (env : Env) (w : World) (body : Body) : M Response :=
  let email := own_prop "email" body in
  rejected <- (if negb (truthy email) then ret true
               else valid <- convert (isValidEmail email) ;; ret (negb valid)) ;;
  if rejected : bool then ret send_otp_invalid
  else
    try_catch
      (let code := generateOTP (Math_random w) in
       storage_set email (mkSession code (Date_now w) false) ;;
       await_sendMail w (otp_mailOptions env email code) ;;
       ret send_otp_ok)
      (fun _ => ret send_otp_failed).

(** *** POST /api/verify-otp *)

Definition verify_otp_missing : Response :=
  mkResponse 400 (JObj [("error", JStr "Email and OTP are required")]).
Definition verify_otp_no_session : Response :=
  mkResponse 400 (JObj [("error", JStr "Please request an OTP first.")]).
Definition verify_otp_expired : Response :=
  mkResponse 400 (JObj [("error", JStr "OTP expired. Please request a new one.")]).
Definition verify_otp_mismatch : Response :=
  mkResponse 400 (JObj [("error", JStr "Invalid OTP.")]).
Definition verify_otp_ok : Response :=
  mkResponse 200 (JObj [("success", JBool true); ("message", JStr "Email verified successfully")]).

Definition verify_otp (w : World) (body : Body) : M Response :=
  let email := own_prop "email" body in
  let code := own_prop "otp" body in
  if negb (truthy email) || negb (truthy code) then ret verify_otp_missing
  else
    otpData <- storage_get email ;;
    match otpData with
    | None => ret verify_otp_no_session
    | Some otpData =>
        if isOTPExpired (Date_now w) (timestamp otpData) then
          storage_delete email ;;
          ret verify_otp_expired
        else
          submitted <- convert (toString code) ;;
          if negb (otp otpData =? submitted)%string then ret verify_otp_mismatch
          else
            storage_set email (mkSession (otp otpData) (timestamp otpData) true) ;;
            ret verify_otp_ok
    end.

(** *** POST /api/create-order *)

Definition create_order_forbidden : Response :=
  mkResponse 403 (JObj [("error", JStr "Email not verified.")]).
Definition create_order_failed : Response :=
  mkResponse 500 (JObj [("error", JStr "Failed to create order")]).

Definition order_options (w : World) (email : JsVal) : OrderOptions :=
  {| amount := 150;
     currency := "INR";
     receipt := "receipt_order_" ++ bytes_toString_hex (randomBytes w 4);
     notes_user_email := email |}.

Definition create_order (w : World) (body : Body) : M Response :=
  let email := own_prop "email" body in
  otpData <- storage_get email ;;
  if match otpData with
     | None => true
     | Some otpData => negb (verified otpData)
     end
  then ret create_order_forbidden
  else
    let options := order_options w email in
    try_catch
      (order <- await_orders_create w options ;;
       ret (mkResponse 200 order))
      (fun _ => ret create_order_failed).

(** *** POST /api/verify-payment *)

(** The [for (let i = 1; i <= 11; i++)] loop that fills [attachments]. *)
Definition attachment (env : Env) (i : nat) : Attachment :=
  let number := padStart 2 "0" (number_toString (Z.of_nat i)) in
  {| filename := "bazinga_" ++ number ++ ".jpg";
     path := path_join env [dirname env; "files"; "bazinga_" ++ number ++ ".jpg"] |}.

Definition attachments (env : Env) : list Attachment :=
  map (attachment env) (seq 1 11).

Definition payment_mailOptions (env : Env) (email : JsVal) : MailOptions :=
  {| mail_from := dq ++ "BAZINGA!" ++ dq ++ " <" ++ env_text (EMAIL_USER env) ++ ">";
     mail_to := email;
     mail_subject := "Here is your Big Bang Theory Image Collection! 🚀";
     mail_html := "
            <div style=" ++ dq ++ "font-family: Arial, sans-serif; text-align: center; color: #333;" ++ dq ++ ">
                <h2>BAZINGA! Payment Successful! 🎉</h2>
                <p>Hey there, fellow genius!</p>
                <p>Thank you for your purchase. We've attached your exclusive 
                <strong>Big Bang Theory Image Collection</strong> to this email.</p>
                <p>Get ready to explore the cosmos of comedy and science!</p>
                <br>
                <p>Best regards,</p>
                <p><strong>The BAZINGA Team 🧬</strong></p>
            </div>
        ";
     mail_attachments := Some (attachments env) |}.

Definition verify_payment_bad_signature : Response :=
  mkResponse 400 (JObj [("status", JStr "error"); ("message", JStr "Invalid payment signature.")]).
Definition verify_payment_ok : Response :=
  mkResponse 200 (JObj [("status", JStr "success"); ("message", JStr "Payment successful and images sent!")]).
Definition verify_payment_mail_failed : Response :=
  mkResponse 500 (JObj [("status", JStr "error"); ("message", JStr "Payment verified, but email failed.")]).

(** [`${razorpay_order_id}|${razorpay_payment_id}`] *)
Definition signed_text (order_id payment_id : JsVal) : option string :=
  match ToString order_id, ToString payment_id with
  | Some o, Some p => Some (o ++ "|" ++ p)
  | _, _ => None
  end.

Definition verify_payment (env : Env) (w : World) (body : Body) : M Response :=
  let razorpay_order_id := own_prop "razorpay_order_id" body in
  let razorpay_payment_id := own_prop "razorpay_payment_id" body in
  let razorpay_signature := own_prop "razorpay_signature" body in
  let email := own_prop "email" body in
  text <- convert (signed_text razorpay_order_id razorpay_payment_id) ;;
  let expectedSignature := createHmac_sha256_hex (RAZORPAY_KEY_SECRET env) text in
  if negb (strict_eq_string expectedSignature razorpay_signature)
  then ret verify_payment_bad_signature
  else
    try_catch
      (await_sendMail w (payment_mailOptions env email) ;;
       storage_delete email ;;
       ret verify_payment_ok)
      (fun _ => ret verify_payment_mail_failed).

Local Close Scope handler_scope.

(** *** Running requests *)

Inductive Request : Type :=
| SendOtp (body : Body)
| VerifyOtp (body : Body)
| CreateOrder (body : Body)
| VerifyPayment (body : Body).

Definition handler (env : Env) (w : World) (r : Request) : M Response :=
  match r with
  | SendOtp body => send_otp env w body
  | VerifyOtp body => verify_otp w body
  | CreateOrder body => create_order w body
  | VerifyPayment body => verify_payment env w body
  end.

(** One request against the store [m]: what the handler produced (a
    response, or an exception nothing caught), the store afterwards and the
    calls it made. *)
Definition run {A} (h : M A) (m : OtpMap) : Res A * OtpMap * list Call :=
  let '(r, s) := h (mkHState m []) in (r, otpStorage s, calls s).

Definition outcome {A} (x : Res A * OtpMap * list Call) : Res A := fst (fst x).
Definition store_after {A} (x : Res A * OtpMap * list Call) : OtpMap := snd (fst x).
Definition calls_made {A} (x : Res A * OtpMap * list Call) : list Call := snd x.

(** The stores the server can be in: [new Map()] at start, then one
    request after the other, each with its own surroundings.  A handler
    writes to the store before its [await] in send-otp and after it in
    verify-payment; the [delete] that runs after the [await] is the one a
    verify-payment request arriving at that later moment would run, so
    interleaved handlers reach no other store. *)
Inductive reachable (env : Env) : OtpMap -> Prop :=
| reach_start : reachable env []
| reach_step (m : OtpMap) (w : World) (r : Request) :
    reachable env m ->
    reachable env (store_after (run (handler env w r) m)).

(** Number of entries a key finds. *)
Definition sessions_of (k : JsVal) (m : OtpMap) : nat :=
  List.length (filter (fun e => SameValueZero k (fst e)) m).

(** *** Invariants of the store *)

(** Every key finds at most one entry. *)
Definition unique_keys (m : OtpMap) : Prop :=
  forall k, (sessions_of k m <= 1)%nat.

(** A key that passed the checks of send-otp. *)
Definition accepted_key (k : JsVal) : Prop :=
  truthy k = true /\ isValidEmail k = Some true.

(** *** Concrete surroundings, to evaluate the handlers on *)

Definition sample_env : Env :=
  {| RAZORPAY_KEY_SECRET := "s3cr3t";
     EMAIL_USER := Some "shop@example.com";
     dirname := "/srv/backend";
     path_join := String.concat "/" |}.

Definition sample_world (now : Z) (random : Q) (mail_ok gateway_ok : bool) : World :=
  {| Date_now := now;
     Math_random := random;
     randomBytes := fun n => repeat 0xAB%N n;
     sendMail := fun _ => if mail_ok then Resolved tt else Rejected;
     orders_create := fun o =>
       if gateway_ok
       then Resolved (JObj [("id", JStr "order_1"); ("amount", JNum (amount o));
                            ("currency", JStr (currency o)); ("receipt", JStr (receipt o))])
       else Rejected |}.

(** The store after one send-otp for [a@b.com] at time 0 on a fresh
    server, the random draw being 0. *)
Definition issued_store : OtpMap :=
  store_after (run (handler sample_env (sample_world 0 0 true true)
                            (SendOtp [("email", JStr "a@b.com")])) []).

(** The same store after [a@b.com] verified with the code it was sent. *)
Definition verified_store : OtpMap :=
  store_after (run (handler sample_env (sample_world 1000 0 true true)
                            (VerifyOtp [("email", JStr "a@b.com"); ("otp", JStr "100000")]))
                   issued_store).


(** *** Vocabulary of the further properties *)

(** The words a regular expression denotes. *)
Inductive lang : Regex -> list N -> Prop :=
| lang_eps : lang Eps []
| lang_class (p : N -> bool) (c : N) : p c = true -> lang (Class p) [c]
| lang_seq (r1 r2 : Regex) (u v : list N) :
    lang r1 u -> lang r2 v -> lang (Seq r1 r2) (u ++ v)
| lang_alt_l (r1 r2 : Regex) (u : list N) : lang r1 u -> lang (Alt r1 r2) u
| lang_alt_r (r1 r2 : Regex) (u : list N) : lang r2 u -> lang (Alt r1 r2) u
| lang_star_nil (r : Regex) : lang (Star r) []
| lang_star_cons (r : Regex) (u v : list N) :
    lang r u -> lang (Star r) v -> lang (Star r) (u ++ v).

(** A non-empty run of characters other than white space and [@]. *)
Definition email_part (cs : list N) : Prop :=
  cs <> [] /\ Forall (fun c => not_space_at c = true) cs.

Fixpoint string_forallb (p : ascii -> bool) (s : string) : bool :=
  match s with
  | EmptyString => true
  | String a rest => p a && string_forallb p rest
  end.

Definition is_digit (a : ascii) : bool :=
  ((48 <=? N_of_ascii a) && (N_of_ascii a <=? 57))%N.

Definition is_lower_hex (a : ascii) : bool :=
  is_digit a || ((97 <=? N_of_ascii a) && (N_of_ascii a <=? 102))%N.

(** [req.body] of a request. *)
Definition request_body (r : Request) : Body :=
  match r with
  | SendOtp body | VerifyOtp body | CreateOrder body | VerifyPayment body => body
  end.

(** Unfolds the monad of a handler run. *)
Ltac run_handler :=
  cbv beta iota zeta delta
    [run outcome store_after calls_made bind ret throw try_catch convert
     storage_get storage_set storage_delete record_call
     await_sendMail await_orders_create otpStorage calls fst snd app].

(* ================================================================== *)
(** * Properties                                                        *)
(* ================================================================== *)

(** ** JavaScript values and the crypto model *)

Example number_toString_ex :
  number_toString 0 = "0" /\ number_toString 123456 = "123456" /\ number_toString (-7) = "-7".
Proof. repeat split; reflexivity. Qed.

Example ToString_ex :
  ToString (JArr [JNum 1; JNull; JStr "x"; JArr [JNum 2; JNum 3]]) = Some "1,,x,2,3"
  /\ ToString (JObj [("a", JNum 1)]) = Some "[object Object]"
  /\ ToString (JObj [("toString", JNum 1)]) = None
  /\ toString JNull = None.
Proof. repeat split; reflexivity. Qed.

(** The test vectors of FIPS 180-4 for the empty message and for [abc]. *)
Example sha256_vectors :
  SHA256.hex (SHA256.digest (SHA256.bytes_of ""))
    = "e3b0c44298fc1c149afbf4c8996fb92427ae41e4649b934ca495991b7852b855"
  /\ SHA256.hex (SHA256.digest (SHA256.bytes_of "abc"))
    = "ba7816bf8f01cfea414140de5dae2223b00361a396177a9cb410ff61f20015ad".
Proof. split; vm_compute; reflexivity. Qed.

(** Test case 2 of RFC 4231. *)
Example hmac_rfc4231_case2 :
  createHmac_sha256_hex "Jefe" "what do ya want for nothing?"
    = "5bdcc146bf60754e6a042426089575c75a003f089d2739839dec58b964ec3843".
Proof. vm_compute; reflexivity. Qed.

Example isValidEmail_ex :
  isValidEmail (JStr "a@b.com") = Some true
  /\ isValidEmail (JStr "a@b") = Some false
  /\ isValidEmail (JStr "a b@c.de") = Some false
  /\ isValidEmail (JStr "a@b@c.de") = Some false
  /\ isValidEmail (JStr "a@b.c.de") = Some true
  /\ isValidEmail (JStr "@b.com") = Some false
  /\ isValidEmail (JStr "a@.com") = Some false
  /\ isValidEmail (JStr "a@b.") = Some false
  /\ isValidEmail (JNum 5) = Some false
  /\ isValidEmail (JArr [JStr "a@b.com"]) = Some true
  /\ isValidEmail (JObj [("toString", JNull)]) = None.
Proof. repeat split; vm_compute; reflexivity. Qed.

Example generateOTP_ex :
  generateOTP 0 = "100000"
  /\ generateOTP (1 # 2) = "550000"
  /\ generateOTP (899999 # 900000) = "999999".
Proof. repeat split; vm_compute; reflexivity. Qed.

Example padStart_ex :
  padStart 2 "0" "7" = "07" /\ padStart 2 "0" "11" = "11" /\ padStart 5 "ab" "x" = "ababx".
Proof. repeat split; reflexivity. Qed.

(** ** Keys and the store *)

Lemma SameValueZero_eq (a b : JsVal) : SameValueZero a b = true -> a = b.
Proof.
  destruct a, b; simpl; try discriminate; intros H; try reflexivity.
  - apply Bool.eqb_prop in H. now subst.
  - apply Z.eqb_eq in H. now subst.
  - apply String.eqb_eq in H. now subst.
Qed.

Lemma SameValueZero_string (e : string) : SameValueZero (JStr e) (JStr e) = true.
Proof. simpl. apply String.eqb_refl. Qed.

Lemma SameValueZero_sym (a b : JsVal) : SameValueZero a b = SameValueZero b a.
Proof.
  destruct a, b; simpl; try reflexivity.
  - now destruct b, b0.
  - apply Z.eqb_sym.
  - apply String.eqb_sym.
Qed.

Lemma strict_eq_string_true (s : string) (v : JsVal) :
  strict_eq_string s v = true <-> v = JStr s.
Proof.
  split.
  - destruct v; simpl; try discriminate. intros H. apply String.eqb_eq in H. now subst.
  - intros ->. simpl. apply String.eqb_refl.
Qed.

(** Only a key that equals itself finds an entry. *)
Lemma Map_get_some_key (k : JsVal) (m : OtpMap) (s : Session) :
  Map_get k m = Some s -> SameValueZero k k = true.
Proof.
  induction m as [|[k' v'] m IH]; simpl; [discriminate|].
  destruct (SameValueZero k k') eqn:E; [|exact IH].
  intros _. pose proof (SameValueZero_eq _ _ E) as ->. exact E.
Qed.

Lemma Map_get_set_same (k : JsVal) (v : Session) (m : OtpMap) :
  SameValueZero k k = true -> Map_get k (Map_set k v m) = Some v.
Proof.
  intros Hk. induction m as [|[k' v'] m IH]; simpl.
  - now rewrite Hk.
  - destruct (SameValueZero k k') eqn:E; simpl; rewrite E; [reflexivity | exact IH].
Qed.

Lemma Map_get_set_other (k j : JsVal) (v : Session) (m : OtpMap) :
  SameValueZero k j = false -> Map_get j (Map_set k v m) = Map_get j m.
Proof.
  intros Hkj. induction m as [|[k' v'] m IH]; simpl.
  - now rewrite SameValueZero_sym, Hkj.
  - destruct (SameValueZero k k') eqn:E; simpl.
    + apply SameValueZero_eq in E. subst k'.
      now rewrite SameValueZero_sym, Hkj.
    + now rewrite IH.
Qed.

Lemma Map_get_delete_same (k : JsVal) (m : OtpMap) :
  Map_get k (Map_delete k m) = None.
Proof.
  induction m as [|[k' v'] m IH]; simpl; [reflexivity|].
  destruct (SameValueZero k k') eqn:E; simpl; [exact IH | now rewrite E].
Qed.

Lemma Map_get_delete_other (k j : JsVal) (m : OtpMap) :
  SameValueZero k j = false -> Map_get j (Map_delete k m) = Map_get j m.
Proof.
  intros Hkj. induction m as [|[k' v'] m IH]; simpl; [reflexivity|].
  destruct (SameValueZero k k') eqn:E; simpl.
  - apply SameValueZero_eq in E. subst k'.
    now rewrite SameValueZero_sym, Hkj.
  - now rewrite IH.
Qed.

Lemma Map_set_keys (k : JsVal) (v : Session) (m : OtpMap) (s : Session) :
  Map_get k m = Some s -> map fst (Map_set k v m) = map fst m.
Proof.
  induction m as [|[k' v'] m IH]; simpl; [discriminate|].
  destruct (SameValueZero k k') eqn:E; simpl; [reflexivity|].
  intros H. now rewrite IH.
Qed.

Lemma Map_set_In (k : JsVal) (v : Session) (m : OtpMap) :
  exists k', In (k', v) (Map_set k v m) /\ (k' = k).
Proof.
  induction m as [|[k' v'] m IH]; simpl.
  - exists k. auto.
  - destruct (SameValueZero k k') eqn:E.
    + apply SameValueZero_eq in E. subst. exists k'. simpl. auto.
    + destruct IH as [k'' [Hin ->]]. exists k. simpl. auto.
Qed.

Lemma sessions_of_none (k : JsVal) (m : OtpMap) :
  Map_get k m = None -> sessions_of k m = 0%nat.
Proof.
  unfold sessions_of. induction m as [|[k' v'] m IH]; simpl; [reflexivity|].
  destruct (SameValueZero k k'); [discriminate | exact IH].
Qed.

Lemma sessions_of_set (j k : JsVal) (v : Session) (m : OtpMap) :
  sessions_of j (Map_set k v m)
  = match Map_get k m with
    | Some _ => sessions_of j m
    | None => (sessions_of j m + if SameValueZero j k then 1 else 0)%nat
    end.
Proof.
  unfold sessions_of. induction m as [|[k' v'] m IH]; simpl.
  - now destruct (SameValueZero j k).
  - destruct (SameValueZero k k') eqn:E; simpl.
    + now destruct (SameValueZero j k').
    + destruct (SameValueZero j k'); simpl; rewrite IH; now destruct (Map_get k m).
Qed.

Lemma sessions_of_delete (j k : JsVal) (m : OtpMap) :
  (sessions_of j (Map_delete k m) <= sessions_of j m)%nat.
Proof.
  unfold sessions_of, Map_delete. induction m as [|[k' v'] m IH]; simpl; [lia|].
  destruct (SameValueZero k k'); simpl; destruct (SameValueZero j k'); simpl; lia.
Qed.

(** [set] and [delete] keep every key on at most one entry. *)
Lemma unique_keys_set (k : JsVal) (v : Session) (m : OtpMap) :
  unique_keys m -> unique_keys (Map_set k v m).
Proof.
  intros H j. rewrite sessions_of_set.
  destruct (Map_get k m) eqn:G; [apply H|].
  destruct (SameValueZero j k) eqn:E.
  - apply SameValueZero_eq in E. subst j.
    rewrite (sessions_of_none _ _ G). simpl. lia.
  - specialize (H j). lia.
Qed.

Lemma unique_keys_delete (k : JsVal) (m : OtpMap) :
  unique_keys m -> unique_keys (Map_delete k m).
Proof.
  intros H j. specialize (H j). pose proof (sessions_of_delete j k m). lia.
Qed.

(** ** What one run of each handler amounts to *)

Lemma verify_otp_run (w : World) (body : Body) (m : OtpMap) :
  run (verify_otp w body) m =
  let email := own_prop "email" body in
  let code := own_prop "otp" body in
  if negb (truthy email) || negb (truthy code) then (Val verify_otp_missing, m, [])
  else
    match Map_get email m with
    | None => (Val verify_otp_no_session, m, [])
    | Some s =>
        if isOTPExpired (Date_now w) (timestamp s)
        then (Val verify_otp_expired, Map_delete email m, [])
        else
          match toString code with
          | None => (Raise TypeError, m, [])
          | Some submitted =>
              if negb (otp s =? submitted)%string then (Val verify_otp_mismatch, m, [])
              else (Val verify_otp_ok,
                    Map_set email (mkSession (otp s) (timestamp s) true) m, [])
          end
    end.
Proof.
  unfold verify_otp. run_handler.
  destruct (negb (truthy (own_prop "email" body)) || negb (truthy (own_prop "otp" body)));
    [reflexivity|].
  destruct (Map_get (own_prop "email" body) m) as [s|]; [|reflexivity].
  destruct (isOTPExpired (Date_now w) (timestamp s)); [reflexivity|].
  destruct (toString (own_prop "otp" body)) as [submitted|]; [|reflexivity].
  destruct (negb (otp s =? submitted)%string); reflexivity.
Qed.

Lemma send_otp_run (env : Env) (w : World) (body : Body) (m : OtpMap) :
  run (send_otp env w body) m =
  let email := own_prop "email" body in
  let code := generateOTP (Math_random w) in
  let stored := Map_set email (mkSession code (Date_now w) false) m in
  let mail := otp_mailOptions env email code in
  if negb (truthy email) then (Val send_otp_invalid, m, [])
  else
    match isValidEmail email with
    | None => (Raise TypeError, m, [])
    | Some false => (Val send_otp_invalid, m, [])
    | Some true =>
        match sendMail w mail with
        | Resolved _ => (Val send_otp_ok, stored, [CallSendMail mail])
        | Rejected => (Val send_otp_failed, stored, [CallSendMail mail])
        end
    end.
Proof.
  unfold send_otp. run_handler.
  destruct (negb (truthy (own_prop "email" body))); [reflexivity|].
  destruct (isValidEmail (own_prop "email" body)) as [[|]|]; try reflexivity.
  simpl negb. cbv iota.
  destruct (sendMail w _); reflexivity.
Qed.

Lemma create_order_run (w : World) (body : Body) (m : OtpMap) :
  run (create_order w body) m =
  let email := own_prop "email" body in
  let options := order_options w email in
  match Map_get email m with
  | None => (Val create_order_forbidden, m, [])
  | Some s =>
      if negb (verified s) then (Val create_order_forbidden, m, [])
      else
        match orders_create w options with
        | Resolved order => (Val (mkResponse 200 order), m, [CallOrdersCreate options])
        | Rejected => (Val create_order_failed, m, [CallOrdersCreate options])
        end
  end.
Proof.
  unfold create_order. run_handler.
  destruct (Map_get (own_prop "email" body) m) as [s|]; [|reflexivity].
  destruct (negb (verified s)); [reflexivity|].
  destruct (orders_create w _); reflexivity.
Qed.

Lemma verify_payment_run (env : Env) (w : World) (body : Body) (m : OtpMap) :
  run (verify_payment env w body) m =
  let email := own_prop "email" body in
  let mail := payment_mailOptions env email in
  match signed_text (own_prop "razorpay_order_id" body)
                    (own_prop "razorpay_payment_id" body) with
  | None => (Raise TypeError, m, [])
  | Some text =>
      if negb (strict_eq_string (createHmac_sha256_hex (RAZORPAY_KEY_SECRET env) text)
                                (own_prop "razorpay_signature" body))
      then (Val verify_payment_bad_signature, m, [])
      else
        match sendMail w mail with
        | Resolved _ => (Val verify_payment_ok, Map_delete email m, [CallSendMail mail])
        | Rejected => (Val verify_payment_mail_failed, m, [CallSendMail mail])
        end
  end.
Proof.
  unfold verify_payment. run_handler.
  destruct (signed_text _ _) as [text|]; [|reflexivity].
  destruct (negb (strict_eq_string _ _)); [reflexivity|].
  destruct (sendMail w _); reflexivity.
Qed.

(** Every handler leaves the store as it was, or applies one [set] or one
    [delete] to it; a [set] is under a key that send-otp accepted or under
    a key that is already there. *)
Lemma handler_store (env : Env) (w : World) (r : Request) (m : OtpMap) :
  let m' := store_after (run (handler env w r) m) in
  m' = m
  \/ (exists k v, (accepted_key k \/ exists s, Map_get k m = Some s) /\ m' = Map_set k v m)
  \/ (exists k, m' = Map_delete k m).
Proof.
  destruct r as [body|body|body|body]; simpl handler; cbv zeta.
  - rewrite send_otp_run. cbv zeta.
    destruct (negb (truthy _)) eqn:T; [now left|].
    destruct (isValidEmail _) as [[|]|] eqn:V; try now left.
    apply Bool.negb_false_iff in T.
    destruct (sendMail w _); right; left; do 2 eexists;
      (split; [left; split; eassumption | reflexivity]).
  - rewrite verify_otp_run. cbv zeta.
    destruct (negb _ || negb _); [now left|].
    destruct (Map_get _ m) as [s|] eqn:G; [|now left].
    destruct (isOTPExpired _ _); [right; right; eexists; reflexivity|].
    destruct (toString _); [|now left].
    destruct (negb _); [now left|].
    right; left; do 2 eexists. split; [right; eexists; exact G | reflexivity].
  - rewrite create_order_run. cbv zeta.
    destruct (Map_get _ m) as [s|]; [|now left].
    destruct (negb _); [now left|].
    destruct (orders_create w _); now left.
  - rewrite verify_payment_run. cbv zeta.
    destruct (signed_text _ _); [|now left].
    destruct (negb _); [now left|].
    destruct (sendMail w _); [right; right; eexists; reflexivity | now left].
Qed.

Lemma reachable_unique_keys (env : Env) (m : OtpMap) :
  reachable env m -> unique_keys m.
Proof.
  induction 1 as [|m w r Hm IH].
  - intros k. unfold sessions_of. simpl. lia.
  - destruct (handler_store env w r m) as [E|[(k & v & _ & E)|(k & E)]]; rewrite E.
    + exact IH.
    + now apply unique_keys_set.
    + now apply unique_keys_delete.
Qed.

Lemma Map_set_new_keys (k : JsVal) (v : Session) (m : OtpMap) :
  Map_get k m = None -> map fst (Map_set k v m) = (map fst m ++ [k])%list.
Proof.
  induction m as [|[k' v'] m IH]; simpl; [reflexivity|].
  destruct (SameValueZero k k'); [discriminate|].
  intros G. simpl. now rewrite IH.
Qed.

Lemma Map_get_In (k : JsVal) (m : OtpMap) (s : Session) :
  Map_get k m = Some s -> In k (map fst m).
Proof.
  induction m as [|[k' v'] m IH]; simpl; [discriminate|].
  destruct (SameValueZero k k') eqn:E.
  - intros _. left. symmetry. now apply SameValueZero_eq.
  - intros G. right. auto.
Qed.

(** Every key of a reachable store passed the checks of send-otp. *)
Lemma reachable_keys_accepted (env : Env) (m : OtpMap) :
  reachable env m -> Forall accepted_key (map fst m).
Proof.
  induction 1 as [|m w r Hm IH]; [constructor|].
  destruct (handler_store env w r m) as [E|[(k & v & Hk & E)|(k & E)]]; rewrite E.
  - exact IH.
  - destruct (Map_get k m) as [s|] eqn:G.
    + now rewrite (Map_set_keys _ _ _ _ G).
    + rewrite (Map_set_new_keys _ _ _ G). apply Forall_app. split; [exact IH|].
      constructor; [|constructor].
      destruct Hk as [Hk|[s Hs]]; [exact Hk | discriminate].
  - unfold Map_delete. clear -IH.
    induction m as [|[k' v'] m IHm]; simpl; [constructor|].
    inversion IH; subst. destruct (negb _); simpl; [constructor|]; auto.
Qed.

Lemma reachable_session_key (env : Env) (m : OtpMap) (k : JsVal) (s : Session) :
  reachable env m -> Map_get k m = Some s -> accepted_key k.
Proof.
  intros R G. pose proof (reachable_keys_accepted _ _ R) as F.
  rewrite Forall_forall in F. apply F. now apply Map_get_In with (s := s).
Qed.

(* ================================================================== *)
(** * The OTP verifier                                                  *)
(* ================================================================== *)

(** C10. The presence check of verify-otp is [!otp]: a request whose OTP
    is the number 0 or the empty string is answered 400 "Email and OTP are
    required", whatever the email and the store; the store is not read or
    changed (no lookup, no expiry deletion, no match check) and nothing is
    sent. *)
Theorem verify_otp_falsy_code_is_missing (w : World) (body : Body) (m : OtpMap) :
  own_prop "otp" body = JNum 0 \/ own_prop "otp" body = JStr "" ->
  run (verify_otp w body) m = (Val verify_otp_missing, m, []).
Proof.
  intros H. rewrite verify_otp_run. cbv zeta.
  assert (T : truthy (own_prop "otp" body) = false) by (destruct H as [-> | ->]; reflexivity).
  rewrite T. now rewrite Bool.orb_true_r.
Qed.

Lemma verify_otp_falsy_code_witness :
  run (verify_otp (sample_world 1000 0 true true)
                  [("email", JStr "a@b.com"); ("otp", JNum 0)])
      [(JStr "a@b.com", mkSession "0" 0 false)]
  = (Val verify_otp_missing, [(JStr "a@b.com", mkSession "0" 0 false)], []).
Proof.
  apply (verify_otp_falsy_code_is_missing
           (sample_world 1000 0 true true)
           [("email", JStr "a@b.com"); ("otp", JNum 0)]
           [(JStr "a@b.com", mkSession "0" 0 false)]).
  left. reflexivity.
Defined.

(** C8. A verification that succeeds found a session under the email and
    put back the same code and the same timestamp with [verified] set;
    every other key reads as before, the keys and their order are the
    same, and no collaborator was called. *)
Theorem verify_otp_success_frame (w : World) (body : Body) (m : OtpMap) :
  let email := own_prop "email" body in
  let r := run (verify_otp w body) m in
  outcome r = Val verify_otp_ok ->
  exists s,
    Map_get email m = Some s
    /\ Map_get email (store_after r) = Some (mkSession (otp s) (timestamp s) true)
    /\ store_after r = Map_set email (mkSession (otp s) (timestamp s) true) m
    /\ (forall k, SameValueZero email k = false ->
                  Map_get k (store_after r) = Map_get k m)
    /\ map fst (store_after r) = map fst m
    /\ calls_made r = [].
Proof.
  cbv zeta. rewrite verify_otp_run. cbv zeta.
  destruct (negb _ || negb _); [discriminate|].
  destruct (Map_get (own_prop "email" body) m) as [s|] eqn:G; [|discriminate].
  destruct (isOTPExpired _ _); [discriminate|].
  destruct (toString _) as [submitted|]; [|discriminate].
  destruct (negb _); [discriminate|].
  intros _. exists s. unfold store_after, calls_made. simpl fst. simpl snd.
  pose proof (Map_get_some_key _ _ _ G) as P.
  repeat split.
  - now apply Map_get_set_same.
  - intros k Hk. now apply Map_get_set_other.
  - now apply Map_set_keys with (s := s).
Qed.

Lemma verify_otp_success_frame_witness :
  exists s,
    Map_get (JStr "a@b.com") [(JStr "a@b.com", mkSession "123456" 0 false)] = Some s
    /\ Map_get (JStr "a@b.com")
         (store_after (run (verify_otp (sample_world 1000 0 true true)
                              [("email", JStr "a@b.com"); ("otp", JNum 123456)])
                           [(JStr "a@b.com", mkSession "123456" 0 false)]))
       = Some (mkSession (otp s) (timestamp s) true).
Proof.
  destruct (verify_otp_success_frame
              (sample_world 1000 0 true true)
              [("email", JStr "a@b.com"); ("otp", JNum 123456)]
              [(JStr "a@b.com", mkSession "123456" 0 false)]
              eq_refl) as (s & H1 & H2 & _).
  exists s. split; [exact H1 | exact H2].
Defined.

Lemma issued_store_reachable : reachable sample_env issued_store.
Proof. unfold issued_store. apply reach_step. apply reach_start. Qed.

Lemma issued_store_value :
  issued_store = [(JStr "a@b.com", mkSession "100000" 0 false)].
Proof. vm_compute. reflexivity. Qed.



(** C3, as the code has it.  In a store the server can be in, a
    verification attempt that carries a code (truthy) and meets a session
    issued strictly more than 5 minutes before ([now - issuedAt > 300000]
    milliseconds) is answered 400 "OTP expired. Please request a new one."
    and deletes the session; every later attempt for that email that
    carries a code, the stored one included, is answered 400 "Please
    request an OTP first." and changes nothing. *)
Theorem verify_otp_expired_deletes
    (env : Env) (m : OtpMap) (w : World) (body : Body) (s : Session) :
  let email := own_prop "email" body in
  let code := own_prop "otp" body in
  reachable env m ->
  Map_get email m = Some s ->
  truthy code = true ->
  Date_now w - timestamp s > 5 * 60 * 1000 ->
  let r := run (verify_otp w body) m in
  r = (Val verify_otp_expired, Map_delete email m, [])
  /\ Map_get email (store_after r) = None
  /\ forall (w' : World) (body' : Body),
       own_prop "email" body' = email ->
       truthy (own_prop "otp" body') = true ->
       run (verify_otp w' body') (store_after r)
       = (Val verify_otp_no_session, store_after r, []).
Proof.
  cbv zeta. intros R G Hcode Hlate.
  destruct (reachable_session_key _ _ _ _ R G) as [Hemail _].
  assert (E : run (verify_otp w body) m
              = (Val verify_otp_expired, Map_delete (own_prop "email" body) m, [])).
  { rewrite verify_otp_run. cbv zeta. rewrite Hemail, Hcode, G. simpl.
    unfold isOTPExpired. destruct (Z.gtb_spec (Date_now w - timestamp s) (5 * 60 * 1000));
      [reflexivity | lia]. }
  rewrite E. unfold store_after. simpl fst. simpl snd.
  split; [reflexivity|]. split; [apply Map_get_delete_same|].
  intros w' body' He Hc'. rewrite verify_otp_run. cbv zeta.
  rewrite He, Hemail, Hc', Map_get_delete_same. reflexivity.
Qed.

Lemma verify_otp_expired_witness :
  run (verify_otp (sample_world 300001 0 true true)
                  [("email", JStr "a@b.com"); ("otp", JStr "100000")]) issued_store
  = (Val verify_otp_expired, Map_delete (JStr "a@b.com") issued_store, []).
Proof.
  refine (proj1 (verify_otp_expired_deletes
                   sample_env issued_store (sample_world 300001 0 true true)
                   [("email", JStr "a@b.com"); ("otp", JStr "100000")]
                   (mkSession "100000" 0 false)
                   issued_store_reachable _ _ _)).
  - vm_compute. reflexivity.
  - reflexivity.
  - vm_compute. reflexivity.
Defined.

(** C3 as stated fails at the boundary: exactly 5 minutes after issuance
    ([now - issuedAt = 300000], so [>= 5 minutes]) the stored code is still
    accepted, the answer is the success response and the session stays. *)
Lemma verify_otp_at_five_minutes_not_expired :
  let w := sample_world 300000 0 true true in
  let r := run (verify_otp w [("email", JStr "a@b.com"); ("otp", JStr "100000")])
               issued_store in
  reachable sample_env issued_store
  /\ Map_get (JStr "a@b.com") issued_store = Some (mkSession "100000" 0 false)
  /\ Date_now w - 0 >= 5 * 60 * 1000
  /\ outcome r = Val verify_otp_ok
  /\ outcome r <> Val verify_otp_expired
  /\ Map_get (JStr "a@b.com") (store_after r) = Some (mkSession "100000" 0 true).
Proof.
  cbv zeta. split; [exact issued_store_reachable|].
  split; [vm_compute; reflexivity|].
  split; [vm_compute; discriminate|].
  split; [vm_compute; reflexivity|].
  split; [vm_compute; discriminate|].
  vm_compute; reflexivity.
Qed.

(* ================================================================== *)
(** * The OTP issuer                                                    *)
(* ================================================================== *)

Lemma sessions_of_some (k : JsVal) (m : OtpMap) (s : Session) :
  Map_get k m = Some s -> (1 <= sessions_of k m)%nat.
Proof.
  unfold sessions_of. induction m as [|[k' v'] m IH]; simpl; [discriminate|].
  destruct (SameValueZero k k'); simpl; [lia | exact IH].
Qed.

(** What send-otp does once the email passed its checks. *)
Lemma send_otp_accepted (env : Env) (w : World) (body : Body) (m : OtpMap) :
  let email := own_prop "email" body in
  let fresh := mkSession (generateOTP (Math_random w)) (Date_now w) false in
  let mail := otp_mailOptions env email (generateOTP (Math_random w)) in
  accepted_key email ->
  run (send_otp env w body) m
  = (Val (match sendMail w mail with
          | Resolved _ => send_otp_ok
          | Rejected => send_otp_failed
          end),
     Map_set email fresh m, [CallSendMail mail]).
Proof.
  cbv zeta. intros [T V]. rewrite send_otp_run. cbv zeta. rewrite T, V. simpl.
  destruct (sendMail w _); reflexivity.
Qed.

(** C5, as the code has it.  In every store the server can be in, a key
    finds at most one session.  Re-issuing for an email that has a session
    (verified or not, mail delivered or not) puts the fresh session in its
    place: the freshly drawn code, [issuedAt] the current time, [verified]
    false, still one entry and the same keys.  The old code then verifies
    no more, provided the fresh code differs from it; nothing keeps the
    generator from drawing the old code again. *)
Theorem one_session_per_email_and_reissue (env : Env) (m : OtpMap) :
  reachable env m ->
  (forall k, (sessions_of k m <= 1)%nat)
  /\ forall (w : World) (body : Body) (old : Session),
       let email := own_prop "email" body in
       let fresh := mkSession (generateOTP (Math_random w)) (Date_now w) false in
       let r := run (send_otp env w body) m in
       Map_get email m = Some old ->
       (outcome r = Val send_otp_ok \/ outcome r = Val send_otp_failed)
       /\ store_after r = Map_set email fresh m
       /\ Map_get email (store_after r) = Some fresh
       /\ sessions_of email (store_after r) = 1%nat
       /\ map fst (store_after r) = map fst m
       /\ forall (w' : World) (body' : Body),
            own_prop "email" body' = email ->
            toString (own_prop "otp" body') = Some (otp old) ->
            otp old <> otp fresh ->
            outcome (run (verify_otp w' body') (store_after r)) <> Val verify_otp_ok
            /\ (truthy (own_prop "otp" body') = true ->
                isOTPExpired (Date_now w') (Date_now w) = false ->
                run (verify_otp w' body') (store_after r)
                = (Val verify_otp_mismatch, store_after r, [])).
Proof.
  intros R. split; [exact (reachable_unique_keys _ _ R)|].
  intros w body old. cbv zeta. intros G.
  pose proof (reachable_session_key _ _ _ _ R G) as A.
  pose proof (Map_get_some_key _ _ _ G) as P.
  rewrite (send_otp_accepted env w body m A).
  unfold outcome, store_after. simpl fst. simpl snd.
  assert (F : Map_get (own_prop "email" body)
                (Map_set (own_prop "email" body)
                   (mkSession (generateOTP (Math_random w)) (Date_now w) false) m)
              = Some (mkSession (generateOTP (Math_random w)) (Date_now w) false))
    by now apply Map_get_set_same.
  split; [destruct (sendMail w _); auto|].
  split; [reflexivity|]. split; [exact F|].
  split.
  { rewrite sessions_of_set, G.
    pose proof (reachable_unique_keys _ _ R (own_prop "email" body)).
    pose proof (sessions_of_some _ _ _ G). lia. }
  split; [now apply Map_set_keys with (s := old)|].
  intros w' body' He Hs Hne. simpl in Hne.
  rewrite verify_otp_run. cbv zeta. rewrite He, F, Hs. simpl otp. simpl timestamp.
  assert (Q : (generateOTP (Math_random w) =? otp old)%string = false).
  { apply String.eqb_neq. congruence. }
  rewrite Q. simpl negb. cbv iota.
  split.
  - destruct (negb _ || negb _); [discriminate|].
    destruct (isOTPExpired _ _); discriminate.
  - intros Hc Hexp. destruct A as [T _]. rewrite T, Hc, Hexp. reflexivity.
Qed.

Lemma reissue_witness :
  Map_get (JStr "a@b.com")
    (store_after (run (send_otp sample_env (sample_world 1000 (1 # 2) false true)
                                [("email", JStr "a@b.com")]) issued_store))
  = Some (mkSession (generateOTP (1 # 2)) 1000 false).
Proof.
  refine (proj1 (proj2 (proj2
    (proj2 (one_session_per_email_and_reissue sample_env issued_store
              issued_store_reachable)
           (sample_world 1000 (1 # 2) false true)
           [("email", JStr "a@b.com")]
           (mkSession "100000" 0 false) _)))).
  vm_compute. reflexivity.
Defined.

(** C5 as stated fails when the generator draws the old code again: the
    session for [a@b.com] holds the code 100000, the re-issue draws 100000
    once more, and the old code still verifies. *)
Lemma reissue_same_code_still_verifies :
  let r1 := run (send_otp sample_env (sample_world 1000 0 true true)
                          [("email", JStr "a@b.com")]) issued_store in
  let r2 := run (verify_otp (sample_world 2000 0 true true)
                            [("email", JStr "a@b.com"); ("otp", JStr "100000")])
                (store_after r1) in
  reachable sample_env issued_store
  /\ Map_get (JStr "a@b.com") issued_store = Some (mkSession "100000" 0 false)
  /\ outcome r1 = Val send_otp_ok
  /\ Map_get (JStr "a@b.com") (store_after r1) = Some (mkSession "100000" 1000 false)
  /\ outcome r2 = Val verify_otp_ok.
Proof.
  cbv zeta. split; [exact issued_store_reachable|].
  repeat split; vm_compute; reflexivity.
Qed.

(** C7. Whenever send-otp answers 500 "Failed to send OTP", the mail was
    handed to the transport, the transport rejected it, and the store holds
    the session written before the dispatch: the fresh code, [issuedAt] the
    current time, [verified] false.  Nothing undoes the write. *)
Theorem send_otp_failure_keeps_session (env : Env) (w : World) (body : Body) (m : OtpMap) :
  let email := own_prop "email" body in
  let fresh := mkSession (generateOTP (Math_random w)) (Date_now w) false in
  let mail := otp_mailOptions env email (generateOTP (Math_random w)) in
  let r := run (send_otp env w body) m in
  outcome r = Val send_otp_failed ->
  sendMail w mail = Rejected
  /\ calls_made r = [CallSendMail mail]
  /\ store_after r = Map_set email fresh m
  /\ In (email, fresh) (store_after r)
  /\ forall e, email = JStr e -> Map_get email (store_after r) = Some fresh.
Proof.
  cbv zeta. rewrite send_otp_run. cbv zeta.
  destruct (negb (truthy _)); [discriminate|].
  destruct (isValidEmail _) as [[|]|]; try discriminate.
  destruct (sendMail w _) eqn:S; [discriminate|].
  intros _. unfold calls_made, store_after. simpl fst. simpl snd.
  split; [reflexivity|]. split; [reflexivity|]. split; [reflexivity|].
  split.
  - destruct (Map_set_In (own_prop "email" body)
                (mkSession (generateOTP (Math_random w)) (Date_now w) false) m)
      as (k' & Hin & ->). exact Hin.
  - intros e He. rewrite He. apply Map_get_set_same. apply SameValueZero_string.
Qed.

Lemma send_otp_failure_witness :
  Map_get (JStr "a@b.com")
    (store_after (run (send_otp sample_env (sample_world 5000 (1 # 2) false true)
                                [("email", JStr "a@b.com")]) []))
  = Some (mkSession (generateOTP (1 # 2)) 5000 false).
Proof.
  refine (proj2 (proj2 (proj2 (proj2
    (send_otp_failure_keeps_session sample_env (sample_world 5000 (1 # 2) false true)
       [("email", JStr "a@b.com")] [] _)))) "a@b.com" eq_refl).
  vm_compute. reflexivity.
Defined.

(* ================================================================== *)
(** * The order gate                                                    *)
(* ================================================================== *)

Lemma verified_store_reachable : reachable sample_env verified_store.
Proof. unfold verified_store. apply reach_step. exact issued_store_reachable. Qed.

Lemma verified_store_value :
  verified_store = [(JStr "a@b.com", mkSession "100000" 0 true)].
Proof. vm_compute. reflexivity. Qed.

(** C6. create-order never touches the store.  Without a session, or with
    a session whose [verified] is false, it answers 403 "Email not
    verified." and the gateway is not called; the gateway is called only
    for a session with [verified] true, once, and its order is returned as
    it is.  When the gateway rejects, the answer is 500 "Failed to create
    order", the verified session is still there, and a retry whose gateway
    call resolves returns the order. *)
Theorem create_order_gate (w : World) (body : Body) (m : OtpMap) :
  let email := own_prop "email" body in
  let options := order_options w email in
  let r := run (create_order w body) m in
  store_after r = m
  /\ (Map_get email m = None \/ (exists s, Map_get email m = Some s /\ verified s = false) ->
      outcome r = Val create_order_forbidden /\ calls_made r = [])
  /\ (calls_made r <> [] -> exists s, Map_get email m = Some s /\ verified s = true)
  /\ forall s, Map_get email m = Some s -> verified s = true ->
       calls_made r = [CallOrdersCreate options]
       /\ (forall order, orders_create w options = Resolved order ->
                         outcome r = Val (mkResponse 200 order))
       /\ (orders_create w options = Rejected ->
           outcome r = Val create_order_failed
           /\ Map_get email (store_after r) = Some s
           /\ forall (w' : World) (order : JsVal),
                orders_create w' (order_options w' email) = Resolved order ->
                outcome (run (create_order w' body) (store_after r))
                = Val (mkResponse 200 order)).
Proof.
  cbv zeta. rewrite create_order_run. cbv zeta.
  destruct (Map_get (own_prop "email" body) m) as [s|] eqn:G.
  - destruct (verified s) eqn:V; simpl negb; cbv iota.
    + assert (St : store_after
                (match orders_create w (order_options w (own_prop "email" body)) with
                 | Resolved order =>
                     (Val (mkResponse 200 order), m,
                      [CallOrdersCreate (order_options w (own_prop "email" body))])
                 | Rejected =>
                     (Val create_order_failed, m,
                      [CallOrdersCreate (order_options w (own_prop "email" body))])
                 end) = m)
        by (destruct (orders_create w _); reflexivity).
      split; [exact St|].
      split.
      { intros [H|(s' & H & H')]; [discriminate|]. congruence. }
      split; [intros _; eauto|].
      intros s' Hs' _. injection Hs' as <-.
      split; [destruct (orders_create w _); reflexivity|].
      split.
      { intros order H. rewrite H. reflexivity. }
      intros H. rewrite H. unfold outcome, store_after. simpl fst. simpl snd.
      split; [reflexivity|]. split; [exact G|].
      intros w' order H'. rewrite create_order_run. cbv zeta. rewrite G, V, H'. reflexivity.
    + split; [reflexivity|]. split; [intros _; split; reflexivity|].
      split; [intros H; now elim H|].
      intros s' Hs' V'. congruence.
  - split; [reflexivity|]. split; [intros _; split; reflexivity|].
    split; [intros H; now elim H|]. intros s' Hs'. discriminate.
Qed.

Lemma create_order_gate_witness :
  outcome (run (create_order (sample_world 2000 0 true false) [("email", JStr "a@b.com")])
               verified_store)
  = Val create_order_failed
  /\ Map_get (JStr "a@b.com")
       (store_after (run (create_order (sample_world 2000 0 true false)
                                       [("email", JStr "a@b.com")]) verified_store))
     = Some (mkSession "100000" 0 true).
Proof.
  pose proof (proj2 (proj2 (proj2
    (proj2 (proj2 (create_order_gate (sample_world 2000 0 true false)
                     [("email", JStr "a@b.com")] verified_store)))
       (mkSession "100000" 0 true) eq_refl eq_refl)) eq_refl) as H.
  split; [exact (proj1 H) | exact (proj1 (proj2 H))].
Defined.

(* ================================================================== *)
(** * The payment verifier                                              *)
(* ================================================================== *)

Lemma strict_eq_string_false (s : string) (v : JsVal) :
  strict_eq_string s v = false <-> v <> JStr s.
Proof.
  rewrite <- strict_eq_string_true. destruct (strict_eq_string s v); split; congruence.
Qed.

(** What verify-payment does once the two identifiers are converted. *)
Lemma verify_payment_signed (env : Env) (w : World) (body : Body) (m : OtpMap) (text : string) :
  let email := own_prop "email" body in
  let mail := payment_mailOptions env email in
  let expected := createHmac_sha256_hex (RAZORPAY_KEY_SECRET env) text in
  signed_text (own_prop "razorpay_order_id" body) (own_prop "razorpay_payment_id" body)
  = Some text ->
  (own_prop "razorpay_signature" body <> JStr expected ->
   run (verify_payment env w body) m = (Val verify_payment_bad_signature, m, []))
  /\ (own_prop "razorpay_signature" body = JStr expected ->
      run (verify_payment env w body) m
      = match sendMail w mail with
        | Resolved _ => (Val verify_payment_ok, Map_delete email m, [CallSendMail mail])
        | Rejected => (Val verify_payment_mail_failed, m, [CallSendMail mail])
        end).
Proof.
  cbv zeta. intros T. rewrite verify_payment_run. cbv zeta. rewrite T. split; intros H.
  - apply strict_eq_string_false in H. now rewrite H.
  - apply strict_eq_string_true in H. now rewrite H.
Qed.








(** A request that names no identifier at all is accepted when it carries
    the digest of [undefined|undefined]. *)
Example verify_payment_undefined_ids_accepted :
  createHmac_sha256_hex "s3cr3t" "undefined|undefined"
  = "03e5f585dab7df454e1a10ed014d6cd597a01169faee64b2452f394dd37f5406"
  /\ outcome (run (verify_payment sample_env (sample_world 3000 0 true true)
                     [("razorpay_signature",
                       JStr "03e5f585dab7df454e1a10ed014d6cd597a01169faee64b2452f394dd37f5406");
                      ("email", JStr "a@b.com")]) verified_store)
     = Val verify_payment_ok.
Proof. split; vm_compute; reflexivity. Qed.

(** Beyond the statements above: an identifier that is an object with
    an own [toString] property cannot be converted, and the handler raises
    a TypeError before it answers. *)
Example verify_payment_unconvertible_id :
  run (verify_payment sample_env (sample_world 3000 0 true true)
         [("razorpay_order_id", JObj [("toString", JNum 1)]);
          ("razorpay_payment_id", JStr "pay_1")]) verified_store
  = (Raise TypeError, verified_store, []).
Proof. vm_compute. reflexivity. Qed.

(* ================================================================== *)
(** * One purchase from start to end                                    *)
(* ================================================================== *)

(** Issue a code for [a@b.com], verify it, create the order, verify the
    payment with the digest of its identifiers: every step succeeds, one
    mail with 11 attachments leaves, and the session is gone, so another
    verification attempt finds none. *)
Example purchase_end_to_end :
  let email := ("email", JStr "a@b.com") in
  let w := sample_world 1000 0 true true in
  let r1 := run (handler sample_env w (SendOtp [email])) [] in
  let r2 := run (handler sample_env w (VerifyOtp [email; ("otp", JStr "100000")]))
                (store_after r1) in
  let r3 := run (handler sample_env w (CreateOrder [email])) (store_after r2) in
  let r4 := run (handler sample_env w
                   (VerifyPayment
                      [("razorpay_order_id", JStr "order_1");
                       ("razorpay_payment_id", JStr "pay_1");
                       ("razorpay_signature",
                        JStr "c4ba7785e595b717abd8b4847eaf30e97f23acbdbe1b8f5cbbf17d28d63b068f");
                       email])) (store_after r3) in
  let r5 := run (handler sample_env w (VerifyOtp [email; ("otp", JStr "100000")]))
                (store_after r4) in
  outcome r1 = Val send_otp_ok
  /\ outcome r2 = Val verify_otp_ok
  /\ outcome r3
     = Val (mkResponse 200 (JObj [("id", JStr "order_1"); ("amount", JNum 150);
                                  ("currency", JStr "INR");
                                  ("receipt", JStr "receipt_order_abababab")]))
  /\ outcome r4 = Val verify_payment_ok
  /\ calls_made r4 = [CallSendMail (payment_mailOptions sample_env (JStr "a@b.com"))]
  /\ option_map (@List.length Attachment)
       (mail_attachments (payment_mailOptions sample_env (JStr "a@b.com"))) = Some 11%nat
  /\ store_after r4 = []
  /\ outcome r5 = Val verify_otp_no_session.
Proof.
  cbv zeta. repeat split; vm_compute; reflexivity.
Qed.

(* ================================================================== *)
(** * The email pattern                                                 *)
(* ================================================================== *)

Lemma nullable_lang (r : Regex) : nullable r = true <-> lang r [].
Proof.
  induction r as [| |p|r1 IH1 r2 IH2|r1 IH1 r2 IH2|r IH]; simpl.
  - split; [discriminate | intros H; inversion H].
  - split; [constructor | reflexivity].
  - split; [discriminate | intros H; inversion H].
  - rewrite Bool.andb_true_iff, IH1, IH2. split.
    + intros [H1 H2]. exact (lang_seq _ _ [] [] H1 H2).
    + intros H. inversion H as [| |? ? u v H1 H2| | | |]; subst.
      match goal with E : (u ++ v)%list = [] |- _ =>
        apply app_eq_nil in E; destruct E; subst end.
      auto.
  - rewrite Bool.orb_true_iff, IH1, IH2. split.
    + intros [H|H]; [now apply lang_alt_l | now apply lang_alt_r].
    + intros H. inversion H; subst; auto.
  - split; [constructor | reflexivity].
Qed.

(** A non-empty word of [r*] starts with a non-empty word of [r]. *)
Lemma lang_star_uncons (r : Regex) (c : N) (w : list N) :
  lang (Star r) (c :: w) ->
  exists u v, w = (u ++ v)%list /\ lang r (c :: u) /\ lang (Star r) v.
Proof.
  intros H. remember (Star r) as sr eqn:Er. remember (c :: w) as cw eqn:Ew.
  revert c w Ew.
  induction H as [| | | | | |r' u v Hu _ Hv IHv]; try discriminate.
  injection Er as ->. intros c w Ew.
  destruct u as [|c' u].
  - simpl in Ew. now apply IHv.
  - simpl in Ew. injection Ew as -> <-. exists u, v. auto.
Qed.

Lemma deriv_lang (r : Regex) (c : N) (w : list N) :
  lang (deriv c r) w <-> lang r (c :: w).
Proof.
  revert w. induction r as [| |p|r1 IH1 r2 IH2|r1 IH1 r2 IH2|r IH]; intros w; simpl.
  - split; intros H; inversion H.
  - split; intros H; inversion H.
  - destruct (p c) eqn:E; split; intros H; inversion H; subst.
    + now constructor.
    + constructor.
    + congruence.
  - assert (S1 : lang (Seq (deriv c r1) r2) w -> lang (Seq r1 r2) (c :: w)).
    { intros H. inversion H as [| |? ? u v H1 H2| | | |]; subst.
      apply IH1 in H1. exact (lang_seq _ _ (c :: u) v H1 H2). }
    assert (S2 : lang (Seq r1 r2) (c :: w) ->
                 lang (Seq (deriv c r1) r2) w \/ (lang r1 [] /\ lang r2 (c :: w))).
    { intros H. inversion H as [| |? ? u v H1 H2| | | |]; subst.
      match goal with E : (u ++ v)%list = c :: w |- _ =>
        destruct u as [|c' u]; simpl in E;
        [subst v | injection E as -> <-] end.
      - right. auto.
      - left. apply lang_seq; [now apply IH1 | exact H2]. }
    destruct (nullable r1) eqn:Nu.
    + split.
      * intros H. inversion H; subst; [now apply S1|].
        apply nullable_lang in Nu. apply (lang_seq _ _ [] (c :: w)); [exact Nu | now apply IH2].
      * intros H. destruct (S2 H) as [H'|[_ H']];
          [now apply lang_alt_l | apply lang_alt_r; now apply IH2].
    + split; [exact S1|].
      intros H. destruct (S2 H) as [H'|[H' _]]; [exact H'|].
      apply nullable_lang in H'. congruence.
  - split; intros H; inversion H; subst.
    + apply lang_alt_l. now apply IH1.
    + apply lang_alt_r. now apply IH2.
    + apply lang_alt_l. now apply IH1.
    + apply lang_alt_r. now apply IH2.
  - split.
    + intros H. inversion H as [| |? ? u v H1 H2| | | |]; subst.
      apply IH in H1. exact (lang_star_cons _ (c :: u) v H1 H2).
    + intros H. destruct (lang_star_uncons _ _ _ H) as (u & v & -> & H1 & H2).
      apply lang_seq; [now apply IH | exact H2].
Qed.

Lemma fold_deriv_lang (w : list N) (r : Regex) :
  nullable (fold_left (fun r c => deriv c r) w r) = true <-> lang r w.
Proof.
  revert r. induction w as [|c w IH]; intros r; simpl.
  - apply nullable_lang.
  - rewrite IH. apply deriv_lang.
Qed.

Lemma lang_star_class (p : N -> bool) (w : list N) :
  lang (Star (Class p)) w <-> Forall (fun c => p c = true) w.
Proof.
  split.
  - intros H. remember (Star (Class p)) as sr eqn:E.
    induction H as [| | | | | |r u v Hu _ Hv IHv]; try discriminate.
    + constructor.
    + injection E as ->. inversion Hu; subst. constructor; auto.
  - induction 1 as [|c w Hc _ IH]; [constructor|].
    apply (lang_star_cons _ [c] w); [now constructor | exact IH].
Qed.

Lemma lang_plus_class (p : N -> bool) (w : list N) :
  lang (Plus (Class p)) w <-> w <> [] /\ Forall (fun c => p c = true) w.
Proof.
  unfold Plus. split.
  - intros H. inversion H as [| |? ? u v H1 H2| | | |]; subst.
    inversion H1; subst. apply lang_star_class in H2.
    split; [discriminate | constructor; auto].
  - intros [Hn F]. destruct w as [|c w]; [congruence|].
    inversion F; subst.
    apply (lang_seq _ _ [c] w); [now constructor | now apply lang_star_class].
Qed.

Lemma lang_single (c : N) (w : list N) : lang (Class (N.eqb c)) w <-> w = [c].
Proof.
  split.
  - intros H. inversion H; subst.
    match goal with E : (c =? _)%N = true |- _ => apply N.eqb_eq in E; now subst end.
  - intros ->. constructor. apply N.eqb_refl.
Qed.

Lemma lang_email_regex (w : list N) :
  lang email_regex w <->
  exists a b c, w = (a ++ 64%N :: b ++ 46%N :: c)%list
                /\ email_part a /\ email_part b /\ email_part c.
Proof.
  unfold email_regex, email_part. split.
  - intros H.
    inversion H as [| |? ? a v1 Ha H1| | | |]; subst.
    inversion H1 as [| |? ? x v2 Hx H2| | | |]; subst.
    inversion H2 as [| |? ? b v3 Hb H3| | | |]; subst.
    inversion H3 as [| |? ? y c Hy Hc| | | |]; subst.
    apply lang_single in Hx, Hy. subst.
    apply lang_plus_class in Ha, Hb, Hc.
    exists a, b, c. simpl. auto.
  - intros (a & b & c & -> & Ha & Hb & Hc).
    apply lang_plus_class in Ha, Hb, Hc.
    apply lang_seq; [exact Ha|].
    apply (lang_seq _ _ [64%N]); [now apply lang_single|].
    apply lang_seq; [exact Hb|].
    apply (lang_seq _ _ [46%N]); [now apply lang_single | exact Hc].
Qed.

(** X1. A string passes [isValidEmail] exactly when its characters split
    as [a @ b . c] with [a], [b] and [c] non-empty and free of white space
    and of [@]. *)
Theorem isValidEmail_string (s : string) :
  isValidEmail (JStr s) = Some true <->
  exists a b c,
    code_points (SHA256.bytes_of s) = (a ++ 64%N :: b ++ 46%N :: c)%list
    /\ email_part a /\ email_part b /\ email_part c.
Proof.
  unfold isValidEmail, regex_test. simpl ToString.
  rewrite <- lang_email_regex, <- fold_deriv_lang.
  split; [intros [= H]; exact H | intros ->; reflexivity].
Qed.

(* ================================================================== *)
(** * Numbers as text                                                   *)
(* ================================================================== *)

Lemma string_of_uint_digits (d : Decimal.uint) :
  string_forallb is_digit (NilEmpty.string_of_uint d) = true.
Proof. induction d; simpl; auto. Qed.





Lemma number_toString_pos (p : positive) :
  number_toString (Z.pos p) = NilEmpty.string_of_uint (Pos.to_uint p).
Proof.
  unfold number_toString. simpl.
  pose proof (Unsigned.to_uint_nonnil p). now destruct (Pos.to_uint p).
Qed.


Lemma number_toString_nonempty (z : Z) : number_toString z <> "".
Proof.
  unfold number_toString. destruct z as [|p|p]; simpl; try discriminate.
  pose proof (Unsigned.to_uint_nonnil p). destruct (Pos.to_uint p); simpl; congruence.
Qed.



(* ================================================================== *)
(** * What send-otp accepts                                             *)
(* ================================================================== *)

Lemma code_points_low (bs : list N) :
  Forall (fun b => (b < 0xC0)%N) bs -> code_points bs = bs.
Proof.
  induction 1 as [|b bs Hb _ IH]; [reflexivity|].
  cbn [code_points]. apply N.ltb_lt in Hb. rewrite Hb. now rewrite IH.
Qed.

Lemma bytes_of_Forall (p : ascii -> bool) (P : N -> Prop) (s : string) :
  (forall a, p a = true -> P (N_of_ascii a)) ->
  string_forallb p s = true -> Forall P (SHA256.bytes_of s).
Proof.
  intros Hp. unfold SHA256.bytes_of. induction s as [|a s IH]; simpl; [constructor|].
  intros H. apply Bool.andb_true_iff in H. destruct H as [Ha Hs].
  constructor; auto.
Qed.

Lemma string_forallb_weaken (p q : ascii -> bool) (s : string) :
  (forall a, p a = true -> q a = true) ->
  string_forallb p s = true -> string_forallb q s = true.
Proof.
  intros Hpq. induction s as [|a s IH]; simpl; [reflexivity|].
  intros H. apply Bool.andb_true_iff in H. destruct H as [Ha Hs].
  now rewrite (Hpq _ Ha), IH.
Qed.

(** The pattern needs an [@]. *)
Lemma regex_test_needs_at (s : string) :
  regex_test email_regex s = true -> In 64%N (code_points (SHA256.bytes_of s)).
Proof.
  unfold regex_test. rewrite fold_deriv_lang, lang_email_regex.
  intros (a & b & c & -> & _). apply in_or_app. right. now left.
Qed.

Lemma is_digit_byte (a : ascii) :
  is_digit a = true -> (N_of_ascii a < 0xC0)%N /\ N_of_ascii a <> 64%N.
Proof.
  unfold is_digit. rewrite Bool.andb_true_iff, !N.leb_le. lia.
Qed.

Lemma number_toString_no_at (z : Z) :
  Forall (fun b => (b < 0xC0)%N /\ b <> 64%N) (SHA256.bytes_of (number_toString z)).
Proof.
  apply bytes_of_Forall with (p := fun a => is_digit a || (N_of_ascii a =? 45)%N).
  - intros a H. apply Bool.orb_true_iff in H. destruct H as [H|H].
    + now apply is_digit_byte.
    + apply N.eqb_eq in H. rewrite H. split; [reflexivity | discriminate].
  - assert (D : forall d, string_forallb (fun a => is_digit a || (N_of_ascii a =? 45)%N)
                            (NilEmpty.string_of_uint d) = true).
    { intros d. apply string_forallb_weaken with (p := is_digit);
        [intros a ->; reflexivity | apply string_of_uint_digits]. }
    destruct z as [|p|p].
    + reflexivity.
    + rewrite number_toString_pos. apply D.
    + unfold number_toString. simpl.
      pose proof (Unsigned.to_uint_nonnil p) as NN.
      replace (NilZero.string_of_uint (Pos.to_uint p))
        with (NilEmpty.string_of_uint (Pos.to_uint p))
        by (now destruct (Pos.to_uint p)).
      apply D.
Qed.

Lemma isValidEmail_number (z : Z) : isValidEmail (JNum z) = Some false.
Proof.
  change (isValidEmail (JNum z)) with (Some (regex_test email_regex (number_toString z))).
  destruct (regex_test email_regex (number_toString z)) eqn:E; [exfalso | reflexivity].
  apply regex_test_needs_at in E.
  pose proof (number_toString_no_at z) as F.
  rewrite code_points_low in E by (eapply Forall_impl; [|exact F]; now intros b [? _]).
  rewrite Forall_forall in F. destruct (F _ E) as [_ NE]. now apply NE.
Qed.

(** A key send-otp lets through is a string or an array. *)
Lemma accepted_key_shape (k : JsVal) :
  accepted_key k -> (exists e, k = JStr e) \/ (exists l, k = JArr l).
Proof.
  intros [T V]. destruct k as [| |b|z|e|l|props]; try discriminate; eauto.
  - destruct b; vm_compute in V; discriminate.
  - rewrite isValidEmail_number in V. discriminate.
  - unfold isValidEmail in V. simpl ToString in V.
    destruct (has_own "toString" props); [discriminate|].
    vm_compute in V. discriminate.
Qed.

(** X3. send-otp lets only strings and arrays through: an email that is
    absent, null, a boolean, a number or an object is answered 400 "Valid
    email is required" whenever it can be converted to text at all; the
    store is unchanged and no mail is sent. *)
Theorem send_otp_rejects_other_types (env : Env) (w : World) (body : Body) (m : OtpMap) :
  let email := own_prop "email" body in
  (forall e, email <> JStr e) ->
  (forall l, email <> JArr l) ->
  ToString email <> None ->
  run (send_otp env w body) m = (Val send_otp_invalid, m, []).
Proof.
  cbv zeta. intros NS NA NT. rewrite send_otp_run. cbv zeta.
  destruct (truthy (own_prop "email" body)) eqn:T; [|reflexivity]. simpl negb. cbv iota.
  destruct (isValidEmail (own_prop "email" body)) as [[|]|] eqn:V; [exfalso|reflexivity|exfalso].
  - destruct (accepted_key_shape _ (conj T V)) as [[e E]|[l E]];
      [now apply (NS e) | now apply (NA l)].
  - unfold isValidEmail in V. destruct (ToString (own_prop "email" body)); [discriminate|].
    now apply NT.
Qed.

Lemma send_otp_rejects_other_types_witness :
  run (send_otp sample_env (sample_world 0 0 true true) [("email", JNum 42)]) issued_store
  = (Val send_otp_invalid, issued_store, []).
Proof.
  apply (send_otp_rejects_other_types sample_env (sample_world 0 0 true true)
           [("email", JNum 42)] issued_store); simpl; discriminate.
Defined.

(** X4. In every store the server can be in, a key that finds a session
    is a string that passes the email pattern: nothing else is ever looked
    up with success. *)
Theorem reachable_sessions_under_emails
    (env : Env) (m : OtpMap) (k : JsVal) (s : Session) :
  reachable env m ->
  Map_get k m = Some s ->
  exists e, k = JStr e /\ e <> "" /\ isValidEmail (JStr e) = Some true.
Proof.
  intros R G. pose proof (reachable_session_key _ _ _ _ R G) as A.
  pose proof (Map_get_some_key _ _ _ G) as P.
  destruct (accepted_key_shape _ A) as [[e ->]|[l ->]]; [|discriminate P].
  exists e. destruct A as [T V]. repeat split; [|exact V].
  intros ->. discriminate T.
Qed.

Lemma reachable_sessions_under_emails_witness :
  exists e, JStr "a@b.com" = JStr e /\ e <> "" /\ isValidEmail (JStr e) = Some true.
Proof.
  apply (reachable_sessions_under_emails sample_env verified_store (JStr "a@b.com")
           (mkSession "100000" 0 true) verified_store_reachable).
  reflexivity.
Defined.

(* ================================================================== *)
(** * From issuance to verification                                     *)
(* ================================================================== *)

Lemma Map_set_twice (k : JsVal) (v v' : Session) (m : OtpMap) :
  SameValueZero k k = true -> Map_set k v' (Map_set k v m) = Map_set k v' m.
Proof.
  intros Hk. induction m as [|[k' u] m IH]; simpl.
  - now rewrite Hk.
  - destruct (SameValueZero k k') eqn:E; simpl; rewrite E; [reflexivity | now rewrite IH].
Qed.

Lemma Map_delete_twice (k : JsVal) (m : OtpMap) :
  Map_delete k (Map_delete k m) = Map_delete k m.
Proof.
  unfold Map_delete. induction m as [|[k' u] m IH]; simpl; [reflexivity|].
  destruct (SameValueZero k k') eqn:E; simpl; [exact IH|].
  rewrite E. simpl. now rewrite IH.
Qed.

Lemma append_assoc (a b c : string) : (a ++ b) ++ c = a ++ (b ++ c).
Proof. induction a as [|x a IH]; simpl; [reflexivity | now rewrite IH]. Qed.

Lemma contains_after_prefix (a rest code after : string) :
  (exists before, rest = before ++ code ++ after) ->
  exists before, a ++ rest = before ++ code ++ after.
Proof. intros [b ->]. exists (a ++ b). now rewrite append_assoc. Qed.

(** The code is part of the body of the mail. *)
Lemma otp_mail_contains_code (env : Env) (email : JsVal) (code : string) :
  exists before after,
    mail_html (otp_mailOptions env email code) = before ++ code ++ after.
Proof.
  cut (exists after before,
         mail_html (otp_mailOptions env email code) = before ++ code ++ after).
  { intros (a & b & H). eauto. }
  unfold otp_mailOptions. cbn [mail_html]. eexists.
  do 9 apply contains_after_prefix. exists "". reflexivity.
Qed.

Lemma valid_string_truthy (e : string) :
  isValidEmail (JStr e) = Some true -> truthy (JStr e) = true.
Proof. destruct e; [vm_compute; discriminate | reflexivity]. Qed.

Lemma not_expired_within (now issued : Z) :
  isOTPExpired now issued = false <-> now - issued <= 5 * 60 * 1000.
Proof.
  unfold isOTPExpired. destruct (Z.gtb_spec (now - issued) (5 * 60 * 1000)); split;
    intros; try lia; congruence.
Qed.

(** X5. After send-otp accepted a string email (mail delivered or not),
    the code inside the one mail it handed to the transport is the code
    that verifies: an attempt for that email no later than 5 minutes after
    issuance, whose submitted value is truthy and has the code as its
    string form (the code as a string in particular), succeeds and leaves
    the session with the same code and timestamp and [verified] true. *)
Theorem issue_then_verify
    (env : Env) (w w' : World) (body body' : Body) (m : OtpMap) (e : string) :
  let code := generateOTP (Math_random w) in
  let r := run (send_otp env w body) m in
  let r' := run (verify_otp w' body') (store_after r) in
  own_prop "email" body = JStr e ->
  isValidEmail (JStr e) = Some true ->
  own_prop "email" body' = JStr e ->
  truthy (own_prop "otp" body') = true ->
  toString (own_prop "otp" body') = Some code ->
  Date_now w' - Date_now w <= 5 * 60 * 1000 ->
  (exists mail before after,
      calls_made r = [CallSendMail mail]
      /\ mail_to mail = JStr e
      /\ mail_html mail = before ++ code ++ after)
  /\ outcome r' = Val verify_otp_ok
  /\ Map_get (JStr e) (store_after r') = Some (mkSession code (Date_now w) true)
  /\ truthy (JStr code) = true /\ toString (JStr code) = Some code.
Proof.
  cbv zeta. intros He V He' Tc Sc Hd.
  pose proof (valid_string_truthy _ V) as T.
  assert (A : accepted_key (own_prop "email" body)) by (rewrite He; split; assumption).
  rewrite (send_otp_accepted env w body m A). rewrite He.
  unfold calls_made, store_after. simpl fst. simpl snd.
  split.
  { destruct (otp_mail_contains_code env (JStr e) (generateOTP (Math_random w)))
      as (before & after & H).
    eexists. exists before, after. split; [reflexivity|]. split; [reflexivity | exact H]. }
  rewrite verify_otp_run. cbv zeta. rewrite He', T, Tc.
  rewrite Map_get_set_same by apply SameValueZero_string.
  cbn [timestamp otp negb orb].
  apply not_expired_within in Hd. rewrite Hd, Sc, String.eqb_refl. cbn [negb fst snd].
  split; [reflexivity|].
  split.
  { rewrite Map_set_twice by apply SameValueZero_string.
    apply Map_get_set_same. apply SameValueZero_string. }
  split; [|reflexivity].
  destruct (generateOTP (Math_random w)) eqn:G; [|reflexivity].
  exfalso. now apply (number_toString_nonempty _ G).
Qed.

Lemma issue_then_verify_witness :
  outcome (run (verify_otp (sample_world 300000 0 true true)
                  [("email", JStr "a@b.com"); ("otp", JNum 100000)])
               (store_after (run (send_otp sample_env (sample_world 0 0 false true)
                                     [("email", JStr "a@b.com")]) [])))
  = Val verify_otp_ok.
Proof.
  refine (proj1 (proj2
    (issue_then_verify sample_env (sample_world 0 0 false true)
       (sample_world 300000 0 true true)
       [("email", JStr "a@b.com")] [("email", JStr "a@b.com"); ("otp", JNum 100000)]
       [] "a@b.com" eq_refl _ eq_refl eq_refl _ _))).
  - vm_compute. reflexivity.
  - vm_compute. reflexivity.
  - vm_compute. discriminate.
Defined.

(* ================================================================== *)
(** * Further behaviour of verify-otp                                   *)
(* ================================================================== *)

(** X6. Verification is not used up: after a successful attempt the same
    request succeeds again for as long as the session is not expired, and
    the second success leaves the store as the first one made it. *)
Theorem verify_otp_repeatable (w w' : World) (body : Body) (m : OtpMap) (s : Session) :
  let r := run (verify_otp w body) m in
  outcome r = Val verify_otp_ok ->
  Map_get (own_prop "email" body) m = Some s ->
  Date_now w' - timestamp s <= 5 * 60 * 1000 ->
  run (verify_otp w' body) (store_after r) = (Val verify_otp_ok, store_after r, []).
Proof.
  cbv zeta. rewrite verify_otp_run. cbv zeta.
  destruct (negb _ || negb _) eqn:P; [discriminate|].
  intros H G Hd. rewrite G in *.
  destruct (isOTPExpired (Date_now w) (timestamp s)); [discriminate|].
  destruct (toString (own_prop "otp" body)) as [submitted|] eqn:S; [|discriminate].
  destruct (negb (otp s =? submitted)%string) eqn:Q; [discriminate|].
  unfold store_after. simpl fst. simpl snd.
  pose proof (Map_get_some_key _ _ _ G) as K.
  rewrite verify_otp_run. cbv zeta. rewrite P, (Map_get_set_same _ _ _ K).
  cbn [timestamp otp]. apply not_expired_within in Hd. rewrite Hd, S, Q.
  now rewrite Map_set_twice.
Qed.

Lemma verify_otp_repeatable_witness :
  run (verify_otp (sample_world 2000 0 true true)
                  [("email", JStr "a@b.com"); ("otp", JStr "100000")]) verified_store
  = (Val verify_otp_ok, verified_store, []).
Proof.
  refine (verify_otp_repeatable (sample_world 1000 0 true true) (sample_world 2000 0 true true)
            [("email", JStr "a@b.com"); ("otp", JStr "100000")] issued_store
            (mkSession "100000" 0 false) eq_refl eq_refl _).
  vm_compute. discriminate.
Defined.

(** X7. verify-otp looks at the submitted value only through its
    truthiness and its string form: two requests for the same email whose
    values agree on both (the code as a string, as a number, as a
    one-element array) get the same answer and leave the same store. *)
Theorem verify_otp_by_string_form (w : World) (body1 body2 : Body) (m : OtpMap) :
  own_prop "email" body1 = own_prop "email" body2 ->
  truthy (own_prop "otp" body1) = truthy (own_prop "otp" body2) ->
  toString (own_prop "otp" body1) = toString (own_prop "otp" body2) ->
  run (verify_otp w body1) m = run (verify_otp w body2) m.
Proof.
  intros He Ht Hs. rewrite !verify_otp_run. cbv zeta. now rewrite He, Ht, Hs.
Qed.

Lemma verify_otp_by_string_form_witness :
  run (verify_otp (sample_world 1000 0 true true)
                  [("email", JStr "a@b.com"); ("otp", JArr [JNum 100000])]) issued_store
  = run (verify_otp (sample_world 1000 0 true true)
                    [("email", JStr "a@b.com"); ("otp", JStr "100000")]) issued_store.
Proof.
  apply (verify_otp_by_string_form (sample_world 1000 0 true true)
           [("email", JStr "a@b.com"); ("otp", JArr [JNum 100000])]
           [("email", JStr "a@b.com"); ("otp", JStr "100000")] issued_store);
    reflexivity.
Defined.

Lemma Map_delete_length (k : JsVal) (m : OtpMap) :
  (List.length (Map_delete k m) <= List.length m)%nat.
Proof.
  unfold Map_delete. induction m as [|[k' u] m IH]; simpl; [lia|].
  destruct (negb _); simpl; lia.
Qed.

Lemma Map_set_length (k : JsVal) (v s : Session) (m : OtpMap) :
  Map_get k m = Some s -> List.length (Map_set k v m) = List.length m.
Proof.
  intros G. rewrite <- (length_map fst (Map_set k v m)), (Map_set_keys _ _ _ _ G).
  apply length_map.
Qed.

(** X8. verify-otp calls no collaborator and creates no entry: whatever
    the request, no call is made, the store does not grow, and every key
    afterwards was a key before. *)
Theorem verify_otp_adds_nothing (w : World) (body : Body) (m : OtpMap) :
  let r := run (verify_otp w body) m in
  calls_made r = []
  /\ (List.length (store_after r) <= List.length m)%nat
  /\ incl (map fst (store_after r)) (map fst m).
Proof.
  cbv zeta. rewrite verify_otp_run. cbv zeta.
  assert (Same : forall x : Res Response,
             calls_made (x, m, @nil Call) = []
             /\ (List.length (store_after (x, m, @nil Call)) <= List.length m)%nat
             /\ incl (map fst (store_after (x, m, @nil Call))) (map fst m)).
  { intros x. repeat split; [apply Nat.le_refl | apply incl_refl]. }
  destruct (negb _ || negb _); [apply Same|].
  destruct (Map_get (own_prop "email" body) m) as [s|] eqn:G; [|apply Same].
  destruct (isOTPExpired _ _).
  - unfold calls_made, store_after. simpl fst. simpl snd.
    split; [reflexivity|]. split; [apply Map_delete_length|].
    unfold Map_delete. intros k Hk. apply in_map_iff in Hk. destruct Hk as (x & <- & Hx).
    apply in_map. apply filter_In in Hx. tauto.
  - destruct (toString _); [|apply Same].
    destruct (negb _); [apply Same|].
    unfold calls_made, store_after. simpl fst. simpl snd.
    split; [reflexivity|].
    rewrite (Map_set_length _ _ _ _ G), (Map_set_keys _ _ _ _ G).
    split; [apply Nat.le_refl | apply incl_refl].
Qed.

(* ================================================================== *)
(** * Exceptions no handler catches                                     *)
(* ================================================================== *)




(* ================================================================== *)
(** * The life of a session                                             *)
(* ================================================================== *)

(** X10. A session appears under a key only through send-otp for that
    key, after the key passed its checks, and it starts with the freshly
    drawn code, the current time and [verified] false. *)
Theorem session_created_only_by_send_otp
    (env : Env) (w : World) (r : Request) (m : OtpMap) (k : JsVal) (s' : Session) :
  Map_get k m = None ->
  Map_get k (store_after (run (handler env w r) m)) = Some s' ->
  exists body,
    r = SendOtp body
    /\ own_prop "email" body = k
    /\ accepted_key k
    /\ s' = mkSession (generateOTP (Math_random w)) (Date_now w) false.
Proof.
  intros G0 G1. pose proof (Map_get_some_key _ _ _ G1) as K.
  destruct r as [body|body|body|body]; simpl handler in G1.
  - rewrite send_otp_run in G1. cbv zeta in G1.
    destruct (negb (truthy (own_prop "email" body))) eqn:T;
      [unfold store_after in G1; simpl in G1; congruence|].
    destruct (isValidEmail (own_prop "email" body)) as [[|]|] eqn:V;
      try (unfold store_after in G1; simpl in G1; congruence).
    assert (G : Map_get k (Map_set (own_prop "email" body)
                             (mkSession (generateOTP (Math_random w)) (Date_now w) false) m)
                = Some s')
      by (destruct (sendMail w _); exact G1).
    destruct (SameValueZero (own_prop "email" body) k) eqn:E.
    + apply SameValueZero_eq in E. rewrite E in *.
      rewrite (Map_get_set_same _ _ _ K) in G. injection G as <-.
      exists body. apply Bool.negb_false_iff in T. repeat split; auto.
    + rewrite (Map_get_set_other _ _ _ _ E) in G. congruence.
  - exfalso. rewrite verify_otp_run in G1. cbv zeta in G1.
    destruct (negb _ || negb _); [unfold store_after in G1; simpl in G1; congruence|].
    destruct (Map_get (own_prop "email" body) m) as [s|] eqn:G;
      [|unfold store_after in G1; simpl in G1; congruence].
    assert (NE : SameValueZero (own_prop "email" body) k = false).
    { destruct (SameValueZero (own_prop "email" body) k) eqn:E; [|reflexivity].
      apply SameValueZero_eq in E. congruence. }
    destruct (isOTPExpired _ _).
    + unfold store_after in G1. simpl in G1.
      rewrite (Map_get_delete_other _ _ _ NE) in G1. congruence.
    + destruct (toString _); [|unfold store_after in G1; simpl in G1; congruence].
      destruct (negb _); unfold store_after in G1; simpl in G1; [congruence|].
      rewrite (Map_get_set_other _ _ _ _ NE) in G1. congruence.
  - exfalso. rewrite create_order_run in G1. cbv zeta in G1.
    destruct (Map_get (own_prop "email" body) m); [|unfold store_after in G1; simpl in G1; congruence].
    destruct (negb _); [unfold store_after in G1; simpl in G1; congruence|].
    destruct (orders_create w _); unfold store_after in G1; simpl in G1; congruence.
  - exfalso. rewrite verify_payment_run in G1. cbv zeta in G1.
    destruct (signed_text _ _); [|unfold store_after in G1; simpl in G1; congruence].
    destruct (negb _); [unfold store_after in G1; simpl in G1; congruence|].
    destruct (sendMail w _); unfold store_after in G1; simpl in G1; [|congruence].
    destruct (SameValueZero (own_prop "email" body) k) eqn:E.
    + apply SameValueZero_eq in E. rewrite E in G1.
      rewrite Map_get_delete_same in G1. discriminate.
    + rewrite (Map_get_delete_other _ _ _ E) in G1. congruence.
Qed.

Lemma session_created_witness :
  exists body,
    SendOtp [("email", JStr "a@b.com")] = SendOtp body
    /\ own_prop "email" body = JStr "a@b.com"
    /\ accepted_key (JStr "a@b.com")
    /\ mkSession "100000" 0 false = mkSession (generateOTP 0) 0 false.
Proof.
  apply (session_created_only_by_send_otp sample_env (sample_world 0 0 true true)
           (SendOtp [("email", JStr "a@b.com")]) [] (JStr "a@b.com")
           (mkSession "100000" 0 false)).
  - reflexivity.
  - vm_compute. reflexivity.
Defined.

Lemma SameValueZero_false_or_eq (a b : JsVal) :
  SameValueZero a b = false \/ a = b.
Proof.
  destruct (SameValueZero a b) eqn:E; [right; now apply SameValueZero_eq | now left].
Qed.

(** X11. [verified] becomes true only through verify-otp: a session that
    is verified after a request was the same session before it, or the
    request was a verify-otp for its key that answered success, met a
    session that was not expired and carried a value whose string form is
    the stored code; code and timestamp are those of the session before. *)
Theorem verified_only_by_verify_otp
    (env : Env) (w : World) (r : Request) (m : OtpMap) (k : JsVal) (s' : Session) :
  let x := run (handler env w r) m in
  Map_get k (store_after x) = Some s' ->
  verified s' = true ->
  Map_get k m = Some s'
  \/ exists body s,
       r = VerifyOtp body
       /\ own_prop "email" body = k
       /\ outcome x = Val verify_otp_ok
       /\ Map_get k m = Some s
       /\ isOTPExpired (Date_now w) (timestamp s) = false
       /\ toString (own_prop "otp" body) = Some (otp s)
       /\ s' = mkSession (otp s) (timestamp s) true.
Proof.
  cbv zeta. intros G1 V'. pose proof (Map_get_some_key _ _ _ G1) as K.
  destruct r as [body|body|body|body]; simpl handler in *.
  - left. rewrite send_otp_run in G1. cbv zeta in G1.
    destruct (negb (truthy (own_prop "email" body)));
      [unfold store_after in G1; simpl in G1; exact G1|].
    destruct (isValidEmail (own_prop "email" body)) as [[|]|];
      try (unfold store_after in G1; simpl in G1; exact G1).
    assert (G : Map_get k (Map_set (own_prop "email" body)
                             (mkSession (generateOTP (Math_random w)) (Date_now w) false) m)
                = Some s')
      by (destruct (sendMail w _); exact G1).
    destruct (SameValueZero_false_or_eq (own_prop "email" body) k) as [E|E].
    + now rewrite (Map_get_set_other _ _ _ _ E) in G.
    + rewrite E in G. rewrite (Map_get_set_same _ _ _ K) in G.
      injection G as <-. discriminate V'.
  - rewrite verify_otp_run in *. cbv zeta in *.
    destruct (negb _ || negb _); [left; exact G1|].
    destruct (Map_get (own_prop "email" body) m) as [s|] eqn:G; [|left; exact G1].
    destruct (SameValueZero_false_or_eq (own_prop "email" body) k) as [E|E].
    + left. destruct (isOTPExpired _ _).
      * unfold store_after in G1. simpl in G1. now rewrite (Map_get_delete_other _ _ _ E) in G1.
      * destruct (toString _); [|exact G1].
        destruct (negb (otp s =? _)%string); [exact G1|].
        unfold store_after in G1. simpl in G1.
        now rewrite (Map_get_set_other _ _ _ _ E) in G1.
    + destruct (isOTPExpired (Date_now w) (timestamp s)) eqn:X.
      * unfold store_after in G1. simpl in G1. rewrite E in G1.
        rewrite Map_get_delete_same in G1. discriminate.
      * destruct (toString (own_prop "otp" body)) as [submitted|] eqn:S;
          [|left; rewrite <- E; unfold store_after in G1; simpl in G1; congruence].
        destruct (negb (otp s =? submitted)%string) eqn:Q;
          [left; rewrite <- E; unfold store_after in G1; simpl in G1; congruence|].
        right. exists body, s. unfold store_after in G1. simpl in G1.
        rewrite E in G1. rewrite (Map_get_set_same _ _ _ K) in G1. injection G1 as <-.
        apply Bool.negb_false_iff, String.eqb_eq in Q. subst submitted.
        rewrite <- E. repeat split; auto.
  - left. rewrite create_order_run in G1. cbv zeta in G1.
    destruct (Map_get (own_prop "email" body) m); [|exact G1].
    destruct (negb _); [exact G1|].
    destruct (orders_create w _); exact G1.
  - left. rewrite verify_payment_run in G1. cbv zeta in G1.
    destruct (signed_text _ _); [|exact G1].
    destruct (negb _); [exact G1|].
    destruct (sendMail w _); [|exact G1].
    unfold store_after in G1. simpl in G1.
    destruct (SameValueZero_false_or_eq (own_prop "email" body) k) as [E|E].
    + now rewrite (Map_get_delete_other _ _ _ E) in G1.
    + rewrite E in G1. rewrite Map_get_delete_same in G1. discriminate.
Qed.

Lemma verified_only_by_verify_otp_witness :
  Map_get (JStr "a@b.com") issued_store = Some (mkSession "100000" 0 true)
  \/ exists body s,
       VerifyOtp [("email", JStr "a@b.com"); ("otp", JStr "100000")] = VerifyOtp body
       /\ own_prop "email" body = JStr "a@b.com"
       /\ outcome (run (handler sample_env (sample_world 1000 0 true true)
                          (VerifyOtp [("email", JStr "a@b.com"); ("otp", JStr "100000")]))
                       issued_store) = Val verify_otp_ok
       /\ Map_get (JStr "a@b.com") issued_store = Some s
       /\ isOTPExpired 1000 (timestamp s) = false
       /\ toString (own_prop "otp" body) = Some (otp s)
       /\ mkSession "100000" 0 true = mkSession (otp s) (timestamp s) true.
Proof.
  apply (verified_only_by_verify_otp sample_env (sample_world 1000 0 true true)
           (VerifyOtp [("email", JStr "a@b.com"); ("otp", JStr "100000")])
           issued_store (JStr "a@b.com") (mkSession "100000" 0 true)).
  - vm_compute. reflexivity.
  - reflexivity.
Defined.

(** X12. A session disappears only in two ways: a verify-otp for its key
    that found it expired (more than 5 minutes old) and answered so, or a
    verify-payment for its key that answered success. *)
Theorem session_removed_only_by_expiry_or_payment
    (env : Env) (w : World) (r : Request) (m : OtpMap) (k : JsVal) (s : Session) :
  let x := run (handler env w r) m in
  Map_get k m = Some s ->
  Map_get k (store_after x) = None ->
  (exists body,
      r = VerifyOtp body /\ own_prop "email" body = k
      /\ outcome x = Val verify_otp_expired
      /\ Date_now w - timestamp s > 5 * 60 * 1000)
  \/ (exists body,
        r = VerifyPayment body /\ own_prop "email" body = k
        /\ outcome x = Val verify_payment_ok).
Proof.
  cbv zeta. intros G0 G1. pose proof (Map_get_some_key _ _ _ G0) as K.
  destruct r as [body|body|body|body]; simpl handler in *.
  - exfalso. rewrite send_otp_run in G1. cbv zeta in G1.
    destruct (negb (truthy (own_prop "email" body)));
      [unfold store_after in G1; simpl in G1; congruence|].
    destruct (isValidEmail (own_prop "email" body)) as [[|]|];
      try (unfold store_after in G1; simpl in G1; congruence).
    assert (G : Map_get k (Map_set (own_prop "email" body)
                             (mkSession (generateOTP (Math_random w)) (Date_now w) false) m)
                = None)
      by (destruct (sendMail w _); exact G1).
    destruct (SameValueZero_false_or_eq (own_prop "email" body) k) as [E|E].
    + rewrite (Map_get_set_other _ _ _ _ E) in G. congruence.
    + rewrite E in G. rewrite (Map_get_set_same _ _ _ K) in G. discriminate.
  - rewrite verify_otp_run in *. cbv zeta in *.
    destruct (negb _ || negb _); [exfalso; unfold store_after in G1; simpl in G1; congruence|].
    destruct (Map_get (own_prop "email" body) m) as [s0|] eqn:G;
      [|exfalso; unfold store_after in G1; simpl in G1; congruence].
    destruct (SameValueZero_false_or_eq (own_prop "email" body) k) as [E|E].
    + exfalso. destruct (isOTPExpired _ _).
      * unfold store_after in G1. simpl in G1.
        rewrite (Map_get_delete_other _ _ _ E) in G1. congruence.
      * destruct (toString _); [|unfold store_after in G1; simpl in G1; congruence].
        destruct (negb (otp s0 =? _)%string); unfold store_after in G1; simpl in G1;
          [congruence|].
        rewrite (Map_get_set_other _ _ _ _ E) in G1. congruence.
    + rewrite E in G. assert (s0 = s) by congruence. subst s0.
      destruct (isOTPExpired (Date_now w) (timestamp s)) eqn:X.
      * left. exists body. repeat split; auto.
        unfold isOTPExpired in X. apply Z.gtb_lt in X. lia.
      * exfalso. destruct (toString _); [|unfold store_after in G1; simpl in G1; congruence].
        destruct (negb (otp s =? _)%string); unfold store_after in G1; simpl in G1;
          [congruence|].
        rewrite E in G1. rewrite (Map_get_set_same _ _ _ K) in G1. discriminate.
  - exfalso. rewrite create_order_run in G1. cbv zeta in G1.
    destruct (Map_get (own_prop "email" body) m);
      [|unfold store_after in G1; simpl in G1; congruence].
    destruct (negb _); [unfold store_after in G1; simpl in G1; congruence|].
    destruct (orders_create w _); unfold store_after in G1; simpl in G1; congruence.
  - rewrite verify_payment_run in *. cbv zeta in *.
    destruct (signed_text _ _); [|exfalso; unfold store_after in G1; simpl in G1; congruence].
    destruct (negb _); [exfalso; unfold store_after in G1; simpl in G1; congruence|].
    destruct (sendMail w _); [|exfalso; unfold store_after in G1; simpl in G1; congruence].
    unfold store_after in G1. simpl in G1.
    destruct (SameValueZero_false_or_eq (own_prop "email" body) k) as [E|E].
    + exfalso. rewrite (Map_get_delete_other _ _ _ E) in G1. congruence.
    + right. exists body. repeat split; auto.
Qed.

Lemma session_removed_witness :
  (exists body,
      VerifyOtp [("email", JStr "a@b.com"); ("otp", JStr "1")] = VerifyOtp body
      /\ own_prop "email" body = JStr "a@b.com"
      /\ outcome (run (handler sample_env (sample_world 400000 0 true true)
                         (VerifyOtp [("email", JStr "a@b.com"); ("otp", JStr "1")]))
                      issued_store) = Val verify_otp_expired
      /\ 400000 - 0 > 5 * 60 * 1000)
  \/ (exists body,
        VerifyOtp [("email", JStr "a@b.com"); ("otp", JStr "1")] = VerifyPayment body
        /\ own_prop "email" body = JStr "a@b.com"
        /\ outcome (run (handler sample_env (sample_world 400000 0 true true)
                           (VerifyOtp [("email", JStr "a@b.com"); ("otp", JStr "1")]))
                        issued_store) = Val verify_payment_ok).
Proof.
  apply (session_removed_only_by_expiry_or_payment sample_env (sample_world 400000 0 true true)
           (VerifyOtp [("email", JStr "a@b.com"); ("otp", JStr "1")])
           issued_store (JStr "a@b.com") (mkSession "100000" 0 false)).
  - vm_compute. reflexivity.
  - vm_compute. reflexivity.
Defined.

(* ================================================================== *)
(** * Further behaviour of verify-payment                               *)
(* ================================================================== *)



(** X14. An accepted payment can be presented again: the same request,
    run on the store the first run left, is accepted again and hands the
    same mail to the transport again; nothing records that the payment was
    already used. *)
Theorem verify_payment_replay (env : Env) (w w' : World) (body : Body) (m : OtpMap) (u : unit) :
  let mail := payment_mailOptions env (own_prop "email" body) in
  let r := run (verify_payment env w body) m in
  outcome r = Val verify_payment_ok ->
  sendMail w' mail = Resolved u ->
  run (verify_payment env w' body) (store_after r)
  = (Val verify_payment_ok, store_after r, [CallSendMail mail]).
Proof.
  cbv zeta. rewrite !verify_payment_run. cbv zeta.
  destruct (signed_text _ _); [|discriminate].
  destruct (negb _); [discriminate|].
  destruct (sendMail w _); [|discriminate].
  intros _ H. rewrite H. unfold store_after. simpl fst. simpl snd.
  now rewrite Map_delete_twice.
Qed.

Lemma verify_payment_replay_witness :
  run (verify_payment sample_env (sample_world 5000 0 true true)
         [("razorpay_order_id", JStr "order_1"); ("razorpay_payment_id", JStr "pay_1");
          ("razorpay_signature",
           JStr "c4ba7785e595b717abd8b4847eaf30e97f23acbdbe1b8f5cbbf17d28d63b068f");
          ("email", JStr "a@b.com")]) []
  = (Val verify_payment_ok, [],
     [CallSendMail (payment_mailOptions sample_env (JStr "a@b.com"))]).
Proof.
  refine (verify_payment_replay sample_env (sample_world 3000 0 true true)
            (sample_world 5000 0 true true)
            [("razorpay_order_id", JStr "order_1"); ("razorpay_payment_id", JStr "pay_1");
             ("razorpay_signature",
              JStr "c4ba7785e595b717abd8b4847eaf30e97f23acbdbe1b8f5cbbf17d28d63b068f");
             ("email", JStr "a@b.com")]
            verified_store tt _ eq_refl).
  vm_compute. reflexivity.
Defined.

(** X15. The [|] between the identifiers is not escaped: moving a part
    [x] across it, from the end of the order identifier to the start of the
    payment identifier, signs the same text, so both requests get the same
    answer for the same claimed signature. *)
Theorem verify_payment_delimiter_shift
    (env : Env) (w : World) (body1 body2 : Body) (m : OtpMap) (o x p : string) :
  own_prop "razorpay_order_id" body1 = JStr (o ++ "|" ++ x) ->
  own_prop "razorpay_payment_id" body1 = JStr p ->
  own_prop "razorpay_order_id" body2 = JStr o ->
  own_prop "razorpay_payment_id" body2 = JStr (x ++ "|" ++ p) ->
  own_prop "razorpay_signature" body1 = own_prop "razorpay_signature" body2 ->
  own_prop "email" body1 = own_prop "email" body2 ->
  run (verify_payment env w body1) m = run (verify_payment env w body2) m.
Proof.
  intros O1 P1 O2 P2 Hs He. rewrite !verify_payment_run. cbv zeta.
  rewrite O1, P1, O2, P2, Hs, He. unfold signed_text. cbn [ToString].
  replace ((o ++ "|" ++ x) ++ "|" ++ p) with (o ++ "|" ++ x ++ "|" ++ p); [reflexivity|].
  rewrite append_assoc. f_equal.
Qed.

Lemma verify_payment_delimiter_shift_witness :
  run (verify_payment sample_env (sample_world 0 0 true true)
         [("razorpay_order_id", JStr "order|1"); ("razorpay_payment_id", JStr "pay");
          ("razorpay_signature", JStr "f"); ("email", JStr "a@b.com")]) verified_store
  = run (verify_payment sample_env (sample_world 0 0 true true)
           [("razorpay_order_id", JStr "order"); ("razorpay_payment_id", JStr "1|pay");
            ("razorpay_signature", JStr "f"); ("email", JStr "a@b.com")]) verified_store.
Proof.
  exact (verify_payment_delimiter_shift sample_env (sample_world 0 0 true true)
           [("razorpay_order_id", JStr "order|1"); ("razorpay_payment_id", JStr "pay");
            ("razorpay_signature", JStr "f"); ("email", JStr "a@b.com")]
           [("razorpay_order_id", JStr "order"); ("razorpay_payment_id", JStr "1|pay");
            ("razorpay_signature", JStr "f"); ("email", JStr "a@b.com")]
           verified_store "order" "1" "pay" eq_refl eq_refl eq_refl eq_refl eq_refl eq_refl).
Defined.

(** X16. verify-payment writes nothing but the one [delete]: unless the
    answer is the success response the store is unchanged, and in every
    case the store does not grow and each key other than the email of the
    request reads as before. *)
Theorem verify_payment_frame (env : Env) (w : World) (body : Body) (m : OtpMap) :
  let r := run (verify_payment env w body) m in
  (outcome r <> Val verify_payment_ok -> store_after r = m)
  /\ (List.length (store_after r) <= List.length m)%nat
  /\ forall k, SameValueZero (own_prop "email" body) k = false ->
               Map_get k (store_after r) = Map_get k m.
Proof.
  cbv zeta. rewrite verify_payment_run. cbv zeta.
  destruct (signed_text _ _); [|repeat split; auto].
  destruct (negb _); [repeat split; auto|].
  destruct (sendMail w _); [|repeat split; auto].
  unfold outcome, store_after. simpl fst. simpl snd.
  split; [intros H; now elim H|]. split; [apply Map_delete_length|].
  intros k Hk. now apply Map_get_delete_other.
Qed.

(* ================================================================== *)
(** * The shape of digests and receipts                                 *)
(* ================================================================== *)

Lemma be_bytes_length (n : nat) (x : N) : List.length (SHA256.be_bytes n x) = n.
Proof.
  revert x. induction n as [|n IH]; intros x; simpl; [reflexivity|].
  rewrite length_app, IH. simpl. lia.
Qed.

Lemma be_bytes_bound (n : nat) (x : N) :
  Forall (fun b => (b < 256)%N) (SHA256.be_bytes n x).
Proof.
  revert x. induction n as [|n IH]; intros x; simpl; [constructor|].
  apply Forall_app. split; [apply IH|]. constructor; [|constructor].
  change 0xFF%N with (N.ones 8). rewrite N.land_ones. now apply N.mod_lt.
Qed.

Lemma blocks_length (fuel : nat) (h ws : list N) :
  List.length h = 8%nat -> List.length (SHA256.blocks fuel h ws) = 8%nat.
Proof.
  revert h ws. induction fuel as [|fuel IH]; intros h ws Hh; simpl; [exact Hh|].
  destruct ws; [exact Hh|]. apply IH.
  unfold SHA256.compress. rewrite length_map, length_combine, Hh. reflexivity.
Qed.

Lemma digest_shape (msg : list N) :
  List.length (SHA256.digest msg) = 32%nat
  /\ Forall (fun b => (b < 256)%N) (SHA256.digest msg).
Proof.
  unfold SHA256.digest.
  set (p := SHA256.pad msg). set (ws := SHA256.words (List.length p) p).
  pose proof (blocks_length (List.length ws) SHA256.H0 ws eq_refl) as L.
  revert L. generalize (SHA256.blocks (List.length ws) SHA256.H0 ws). intros l L.
  assert (G : forall l : list N,
             List.length (flat_map (SHA256.be_bytes 4) l) = (4 * List.length l)%nat
             /\ Forall (fun b => (b < 256)%N) (flat_map (SHA256.be_bytes 4) l)).
  { clear. induction l as [|x l [IH1 IH2]]; [split; [reflexivity | constructor]|].
    cbn [flat_map]. rewrite length_app, be_bytes_length, IH1. split; [simpl; lia|].
    apply Forall_app. split; [apply be_bytes_bound | exact IH2]. }
  destruct (G l) as [G1 G2]. rewrite G1, L. auto.
Qed.

Lemma hex_digit_lower (d : N) : (d < 16)%N -> is_lower_hex (SHA256.hex_digit d) = true.
Proof.
  intros H.
  assert (C : (d = 0 \/ d = 1 \/ d = 2 \/ d = 3 \/ d = 4 \/ d = 5 \/ d = 6 \/ d = 7
               \/ d = 8 \/ d = 9 \/ d = 10 \/ d = 11 \/ d = 12 \/ d = 13 \/ d = 14
               \/ d = 15)%N) by lia.
  repeat (destruct C as [->|C]; [reflexivity|]). now subst.
Qed.

Lemma hex_shape (bs : list N) :
  Forall (fun b => (b < 256)%N) bs ->
  String.length (SHA256.hex bs) = (2 * List.length bs)%nat
  /\ string_forallb is_lower_hex (SHA256.hex bs) = true.
Proof.
  induction 1 as [|b bs Hb _ [IH1 IH2]]; [split; reflexivity|].
  cbn [SHA256.hex String.length string_forallb List.length]. rewrite IH1, IH2.
  split; [lia|].
  rewrite !hex_digit_lower; [reflexivity| |].
  - change 0xF%N with (N.ones 4). rewrite N.land_ones. now apply N.mod_lt.
  - rewrite N.shiftr_div_pow2. apply N.Div0.div_lt_upper_bound. exact Hb.
Qed.

(** The digest is 64 characters out of [0-9a-f], whatever the key and the
    text. *)
Lemma createHmac_sha256_hex_shape (key text : string) :
  String.length (createHmac_sha256_hex key text) = 64%nat
  /\ string_forallb is_lower_hex (createHmac_sha256_hex key text) = true.
Proof.
  unfold createHmac_sha256_hex, SHA256.hmac.
  match goal with |- context [SHA256.digest ?x] =>
    match x with
    | context [SHA256.digest _] => destruct (digest_shape x) as [L B]
    end
  end.
  destruct (hex_shape _ B) as [H1 H2]. rewrite H1, L. auto.
Qed.

(** X17. The signature verify-payment expects is always 64 characters out
    of [0-9a-f]; the comparison is exact, so a claimed signature of another
    length or with any other character (an upper-case digit, say) is
    answered 400 "Invalid payment signature." with the store unchanged and
    nothing sent. *)
Theorem verify_payment_signature_shape
    (env : Env) (w : World) (body : Body) (m : OtpMap) (claimed text : string) :
  signed_text (own_prop "razorpay_order_id" body) (own_prop "razorpay_payment_id" body)
  = Some text ->
  own_prop "razorpay_signature" body = JStr claimed ->
  String.length claimed <> 64%nat \/ string_forallb is_lower_hex claimed = false ->
  String.length (createHmac_sha256_hex (RAZORPAY_KEY_SECRET env) text) = 64%nat
  /\ string_forallb is_lower_hex (createHmac_sha256_hex (RAZORPAY_KEY_SECRET env) text) = true
  /\ run (verify_payment env w body) m = (Val verify_payment_bad_signature, m, []).
Proof.
  intros T S Bad.
  destruct (createHmac_sha256_hex_shape (RAZORPAY_KEY_SECRET env) text) as [L H].
  split; [exact L|]. split; [exact H|].
  apply (proj1 (verify_payment_signed env w body m text T)).
  rewrite S. intros [= ->]. destruct Bad as [Bad|Bad]; congruence.
Qed.

Lemma verify_payment_signature_shape_witness :
  run (verify_payment sample_env (sample_world 0 0 true true)
         [("razorpay_order_id", JStr "order_1"); ("razorpay_payment_id", JStr "pay_1");
          ("razorpay_signature",
           JStr "C4BA7785E595B717ABD8B4847EAF30E97F23ACBDBE1B8F5CBBF17D28D63B068F");
          ("email", JStr "a@b.com")]) verified_store
  = (Val verify_payment_bad_signature, verified_store, []).
Proof.
  refine (proj2 (proj2
    (verify_payment_signature_shape sample_env (sample_world 0 0 true true)
       [("razorpay_order_id", JStr "order_1"); ("razorpay_payment_id", JStr "pay_1");
        ("razorpay_signature",
         JStr "C4BA7785E595B717ABD8B4847EAF30E97F23ACBDBE1B8F5CBBF17D28D63B068F");
        ("email", JStr "a@b.com")]
       verified_store
       "C4BA7785E595B717ABD8B4847EAF30E97F23ACBDBE1B8F5CBBF17D28D63B068F"
       "order_1|pay_1" eq_refl eq_refl _))).
  right. vm_compute. reflexivity.
Defined.

(** X18. The order handed to the gateway is always for the amount 150 in
    INR, noted with the email of the request; when [randomBytes(4)] gives 4
    bytes, its receipt is [receipt_order_] followed by 8 characters out of
    [0-9a-f]. *)
Theorem create_order_options (w : World) (body : Body) (m : OtpMap) (o : OrderOptions) :
  In (CallOrdersCreate o) (calls_made (run (create_order w body) m)) ->
  amount o = 150
  /\ currency o = "INR"
  /\ notes_user_email o = own_prop "email" body
  /\ (List.length (randomBytes w 4) = 4%nat ->
      Forall (fun b => (b < 256)%N) (randomBytes w 4) ->
      exists h, receipt o = "receipt_order_" ++ h
                /\ String.length h = 8%nat
                /\ string_forallb is_lower_hex h = true).
Proof.
  rewrite create_order_run. cbv zeta.
  assert (O : o = order_options w (own_prop "email" body) ->
              amount o = 150 /\ currency o = "INR"
              /\ notes_user_email o = own_prop "email" body
              /\ (List.length (randomBytes w 4) = 4%nat ->
                  Forall (fun b => (b < 256)%N) (randomBytes w 4) ->
                  exists h, receipt o = "receipt_order_" ++ h
                            /\ String.length h = 8%nat
                            /\ string_forallb is_lower_hex h = true)).
  { intros ->. repeat split. intros L B.
    exists (bytes_toString_hex (randomBytes w 4)). split; [reflexivity|].
    destruct (hex_shape _ B) as [H1 H2]. unfold bytes_toString_hex. rewrite H1, L. auto. }
  destruct (Map_get _ m); [|intros H; destruct H].
  destruct (negb _); [intros H; destruct H|].
  destruct (orders_create w _); unfold calls_made; cbn [snd In];
    (intros [H|H]; [apply O; congruence | destruct H]).
Qed.

Lemma create_order_options_witness :
  amount (order_options (sample_world 0 0 true true) (JStr "a@b.com")) = 150
  /\ receipt (order_options (sample_world 0 0 true true) (JStr "a@b.com"))
     = "receipt_order_abababab".
Proof.
  destruct (create_order_options (sample_world 0 0 true true) [("email", JStr "a@b.com")]
              verified_store (order_options (sample_world 0 0 true true) (JStr "a@b.com")))
    as (A & _).
  - left. reflexivity.
  - split; [exact A | reflexivity].
Defined.

(* ================================================================== *)
(** * Across the four handlers                                          *)
(* ================================================================== *)

(** X19. A request touches the session of its own email only: every key
    other than the email of the request reads after the request as it did
    before, whatever the handler and its answer. *)
Theorem request_touches_own_email_only
    (env : Env) (w : World) (r : Request) (m : OtpMap) (k : JsVal) :
  SameValueZero (own_prop "email" (request_body r)) k = false ->
  Map_get k (store_after (run (handler env w r) m)) = Map_get k m.
Proof.
  intros E. destruct r as [body|body|body|body]; simpl handler; simpl request_body in E.
  - rewrite send_otp_run. cbv zeta.
    destruct (negb (truthy _)); [reflexivity|].
    destruct (isValidEmail _) as [[|]|]; try reflexivity.
    destruct (sendMail w _); unfold store_after; simpl fst; simpl snd;
      now apply Map_get_set_other.
  - rewrite verify_otp_run. cbv zeta.
    destruct (negb _ || negb _); [reflexivity|].
    destruct (Map_get (own_prop "email" body) m) as [s|]; [|reflexivity].
    destruct (isOTPExpired _ _);
      [unfold store_after; simpl fst; simpl snd; now apply Map_get_delete_other|].
    destruct (toString _); [|reflexivity].
    destruct (negb (otp s =? _)%string); [reflexivity|].
    unfold store_after; simpl fst; simpl snd. now apply Map_get_set_other.
  - rewrite create_order_run. cbv zeta.
    destruct (Map_get (own_prop "email" body) m); [|reflexivity].
    destruct (negb _); [reflexivity|].
    destruct (orders_create w _); reflexivity.
  - rewrite verify_payment_run. cbv zeta.
    destruct (signed_text _ _); [|reflexivity].
    destruct (negb _); [reflexivity|].
    destruct (sendMail w _); [|reflexivity].
    unfold store_after; simpl fst; simpl snd. now apply Map_get_delete_other.
Qed.

Lemma request_touches_own_email_only_witness :
  Map_get (JStr "a@b.com")
    (store_after (run (handler sample_env (sample_world 7000 (1 # 2) true true)
                         (SendOtp [("email", JStr "c@d.org")])) verified_store))
  = Map_get (JStr "a@b.com") verified_store.
Proof.
  apply (request_touches_own_email_only sample_env (sample_world 7000 (1 # 2) true true)
           (SendOtp [("email", JStr "c@d.org")]) verified_store (JStr "a@b.com")).
  reflexivity.
Defined.

(** X20. How the status of an answer relates to the collaborators: every
    answer has status 200, 400, 403 or 500; an answer 400 or 403 means no
    collaborator was called; an answer 500 means exactly one call was made
    and the collaborator rejected it. *)
Theorem status_and_collaborators
    (env : Env) (w : World) (r : Request) (m : OtpMap) (resp : Response) :
  let x := run (handler env w r) m in
  outcome x = Val resp ->
  (status resp = 200 \/ status resp = 400 \/ status resp = 403 \/ status resp = 500)
  /\ (status resp = 400 \/ status resp = 403 -> calls_made x = [])
  /\ (status resp = 500 ->
      (exists mail, calls_made x = [CallSendMail mail] /\ sendMail w mail = Rejected)
      \/ (exists o, calls_made x = [CallOrdersCreate o] /\ orders_create w o = Rejected)).
Proof.
  cbv zeta.
  assert (Quiet : forall (st : Z) (j : JsVal) (m' : OtpMap),
             st = 400 \/ st = 403 ->
             outcome (Val (mkResponse st j), m', @nil Call) = Val resp ->
             (status resp = 200 \/ status resp = 400 \/ status resp = 403 \/ status resp = 500)
             /\ (status resp = 400 \/ status resp = 403 ->
                 calls_made (Val (mkResponse st j), m', @nil Call) = [])
             /\ (status resp = 500 ->
                 (exists mail, calls_made (Val (mkResponse st j), m', @nil Call)
                               = [CallSendMail mail] /\ sendMail w mail = Rejected)
                 \/ (exists o, calls_made (Val (mkResponse st j), m', @nil Call)
                               = [CallOrdersCreate o] /\ orders_create w o = Rejected))).
  { intros st j m' Hst H. unfold outcome in H. simpl in H. injection H as <-. simpl status.
    split; [lia|]. split; [reflexivity|]. intros; lia. }
  destruct r as [body|body|body|body]; simpl handler.
  - rewrite send_otp_run. cbv zeta.
    destruct (negb (truthy _)); [apply Quiet; lia|].
    destruct (isValidEmail _) as [[|]|]; [|apply Quiet; lia|discriminate].
    destruct (sendMail w _) eqn:S; intros H; unfold outcome in H; simpl in H;
      injection H as <-; simpl status; unfold calls_made; simpl snd.
    + split; [lia|]. split; intros; lia.
    + split; [lia|]. split; [intros; lia|]. intros _. left. eauto.
  - rewrite verify_otp_run. cbv zeta.
    destruct (negb _ || negb _); [apply Quiet; lia|].
    destruct (Map_get (own_prop "email" body) m) as [s|]; [|apply Quiet; lia].
    destruct (isOTPExpired _ _); [apply Quiet; lia|].
    destruct (toString _); [|discriminate].
    destruct (negb (otp s =? _)%string); [apply Quiet; lia|].
    intros H; unfold outcome in H; simpl in H; injection H as <-; simpl status.
    split; [lia|]. split; [reflexivity|]. intros; lia.
  - rewrite create_order_run. cbv zeta.
    destruct (Map_get (own_prop "email" body) m); [|apply Quiet; lia].
    destruct (negb _); [apply Quiet; lia|].
    destruct (orders_create w _) eqn:S; intros H; unfold outcome in H; simpl in H;
      injection H as <-; simpl status; unfold calls_made; simpl snd.
    + split; [lia|]. split; intros; lia.
    + split; [lia|]. split; [intros; lia|]. intros _. right. eauto.
  - rewrite verify_payment_run. cbv zeta.
    destruct (signed_text _ _); [|discriminate].
    destruct (negb _); [apply Quiet; lia|].
    destruct (sendMail w _) eqn:S; intros H; unfold outcome in H; simpl in H;
      injection H as <-; simpl status; unfold calls_made; simpl snd.
    + split; [lia|]. split; intros; lia.
    + split; [lia|]. split; [intros; lia|]. intros _. left. eauto.
Qed.

Lemma status_and_collaborators_witness :
  exists mail,
    calls_made (run (handler sample_env (sample_world 0 0 false true)
                       (SendOtp [("email", JStr "a@b.com")])) [])
    = [CallSendMail mail]
    /\ sendMail (sample_world 0 0 false true) mail = Rejected.
Proof.
  destruct (proj2 (proj2
    (status_and_collaborators sample_env (sample_world 0 0 false true)
       (SendOtp [("email", JStr "a@b.com")]) [] send_otp_failed eq_refl)) eq_refl)
    as [H|(o & H & _)].
  - exact H.
  - discriminate H.
Defined.

Lemma Map_set_array_key (l : list JsVal) (v : Session) (m : OtpMap) :
  Map_set (JArr l) v m = (m ++ [(JArr l, v)])%list.
Proof. induction m as [|[k' u] m IH]; simpl; [reflexivity | now rewrite IH]. Qed.

Lemma Map_get_array_key (l : list JsVal) (m : OtpMap) : Map_get (JArr l) m = None.
Proof. induction m as [|[k' u] m IH]; simpl; [reflexivity | exact IH]. Qed.

(** X21. An email sent as an array whose text passes the pattern (the
    one-element array of an address, say) is accepted by send-otp: the mail
    goes out and an entry is appended to the store.  But an array key is
    never found again: every key reads as before, and a verify-otp or
    create-order for the same array is answered as if no code had been
    requested. *)
Theorem send_otp_array_email_is_lost
    (env : Env) (w w' : World) (body body' : Body) (m : OtpMap) (l : list JsVal) :
  let fresh := mkSession (generateOTP (Math_random w)) (Date_now w) false in
  let mail := otp_mailOptions env (JArr l) (generateOTP (Math_random w)) in
  let r := run (send_otp env w body) m in
  own_prop "email" body = JArr l ->
  isValidEmail (JArr l) = Some true ->
  own_prop "email" body' = JArr l ->
  truthy (own_prop "otp" body') = true ->
  calls_made r = [CallSendMail mail]
  /\ store_after r = (m ++ [(JArr l, fresh)])%list
  /\ (forall k, Map_get k (store_after r) = Map_get k m)
  /\ run (verify_otp w' body') (store_after r)
     = (Val verify_otp_no_session, store_after r, [])
  /\ run (create_order w' body') (store_after r)
     = (Val create_order_forbidden, store_after r, []).
Proof.
  cbv zeta. intros He V He' Tc.
  assert (A : accepted_key (own_prop "email" body)) by (rewrite He; split; [reflexivity | exact V]).
  rewrite (send_otp_accepted env w body m A). rewrite He.
  unfold calls_made, store_after. simpl fst. simpl snd.
  rewrite Map_set_array_key.
  split; [reflexivity|]. split; [reflexivity|].
  split.
  { intros k. induction m as [|[k' u] m IH]; simpl.
    - destruct k; reflexivity.
    - destruct (SameValueZero k k'); [reflexivity | exact IH]. }
  split.
  - rewrite verify_otp_run. cbv zeta. rewrite He', Tc, Map_get_array_key. reflexivity.
  - rewrite create_order_run. cbv zeta. rewrite He', Map_get_array_key. reflexivity.
Qed.

Lemma send_otp_array_email_witness :
  run (verify_otp (sample_world 1000 0 true true)
         [("email", JArr [JStr "a@b.com"]); ("otp", JStr "100000")])
      (store_after (run (send_otp sample_env (sample_world 0 0 true true)
                           [("email", JArr [JStr "a@b.com"])]) []))
  = (Val verify_otp_no_session,
     store_after (run (send_otp sample_env (sample_world 0 0 true true)
                         [("email", JArr [JStr "a@b.com"])]) []), []).
Proof.
  refine (proj1 (proj2 (proj2 (proj2
    (send_otp_array_email_is_lost sample_env (sample_world 0 0 true true)
       (sample_world 1000 0 true true)
       [("email", JArr [JStr "a@b.com"])]
       [("email", JArr [JStr "a@b.com"]); ("otp", JStr "100000")]
       [] [JStr "a@b.com"] eq_refl _ eq_refl eq_refl))))).
  vm_compute. reflexivity.
Defined.

(** X22. Without a session under the email nothing is granted: verify-otp
    answers 400, "Email and OTP are required" or "Please request an OTP
    first.", create-order answers 403, and neither changes the store or
    calls a collaborator.  On a server that just started this holds for
    every request. *)
Theorem no_session_nothing_granted (w : World) (body : Body) (m : OtpMap) :
  Map_get (own_prop "email" body) m = None ->
  (run (verify_otp w body) m = (Val verify_otp_missing, m, [])
   \/ run (verify_otp w body) m = (Val verify_otp_no_session, m, []))
  /\ run (create_order w body) m = (Val create_order_forbidden, m, []).
Proof.
  intros G. rewrite verify_otp_run, create_order_run. cbv zeta. rewrite G.
  split; [|reflexivity]. destruct (negb _ || negb _); auto.
Qed.

Lemma no_session_nothing_granted_witness :
  run (create_order (sample_world 0 0 true true) [("email", JStr "a@b.com")]) []
  = (Val create_order_forbidden, [], []).
Proof.
  exact (proj2 (no_session_nothing_granted (sample_world 0 0 true true)
                  [("email", JStr "a@b.com")] [] eq_refl)).
Defined.
